(** * HEIC to JPG converter: web session driver and command-line batch driver

    A shallow embedding of [app.py] (the Flask application) and of
    [convert_heic_cli.py] (the command-line tool), with the properties of
    the natural-language specification stated and settled against it.

    The imaging library (Pillow with the HEIF opener) is an interface
    ([Imaging]): the code under study is the glue around it. For the
    command-line tool the errors with which the operating system
    answers a path are an interface as well ([Cli.OS]). *)

From Stdlib Require Import Strings.Byte Strings.Ascii Strings.String ZArith.ZArith.
From stdpp Require Import gmap strings list fin_maps pretty sorting lexico.

(** ** Python strings and [os.path] helpers *)

Module Py.

(** [str.lower()], on the ASCII range. *)
Definition lower_ascii (c : ascii) : ascii :=
  let n := nat_of_ascii c in
  if (65 <=? n)%nat && (n <=? 90)%nat then ascii_of_nat (n + 32) else c.

Fixpoint lower (s : string) : string :=
  match s with
  | EmptyString => EmptyString
  | String c r => String (lower_ascii c) (lower r)
  end.

(** [s.endswith(suffix)]. *)
Definition endswith (s suffix : string) : bool :=
  let n := String.length s in
  let m := String.length suffix in
  (m <=? n)%nat && String.eqb (substring (n - m) m s) suffix.

(** [s.rfind(c)] for a one-character needle: the last index of [c],
    or -1. *)
Fixpoint rfind_from (c : ascii) (s : string) (i : Z) (last : Z) : Z :=
  match s with
  | EmptyString => last
  | String d r => rfind_from c r (i + 1) (if Ascii.eqb c d then i else last)
  end.

Definition rfind (c : ascii) (s : string) : Z := rfind_from c s 0 (-1).

(** [p[i:j]] for indices within range. *)
Definition slice (p : string) (i j : nat) : string := substring i (j - i) p.

(** [genericpath._splitext(p, sep, altsep=None, extsep)]: the extension
    starts at the last dot of the last component, leading dots of that
    component not counted. *)
Definition _splitext (p : string) (sep extsep : ascii) : string * string :=
  let sepIndex := rfind sep p in
  let dotIndex := rfind extsep p in
  if (sepIndex <? dotIndex)%Z then
    let filenameIndex := Z.to_nat (sepIndex + 1) in
    let di := Z.to_nat dotIndex in
    if existsb (fun i => negb (String.eqb (slice p i (i + 1)) (String extsep EmptyString)))
               (seq filenameIndex (di - filenameIndex))
    then (slice p 0 di, slice p di (String.length p))
    else (p, EmptyString)
  else (p, EmptyString).

(** [posixpath.splitext]. *)
Definition splitext (p : string) : string * string := _splitext p "/"%char "."%char.

(** [posixpath.join(a, b)]. *)
Definition join (a b : string) : string :=
  if String.prefix "/" b then b
  else if String.eqb a "" || endswith a "/" then a +:+ b
  else a +:+ "/" +:+ b.

(** [str(n)] for a non-negative [int]. *)
Definition str_of_nat (n : nat) : string := pretty n.

(** [c.isspace()] on the ASCII range: tab to carriage return, the four
    separators and the space. *)
Definition is_space (c : ascii) : bool :=
  let n := nat_of_ascii c in
  ((9 <=? n)%nat && (n <=? 13)%nat) || ((28 <=? n)%nat && (n <=? 32)%nat).

Fixpoint lstrip_by (p : ascii -> bool) (s : string) : string :=
  match s with
  | EmptyString => EmptyString
  | String c r => if p c then lstrip_by p r else s
  end.

Fixpoint rstrip_by (p : ascii -> bool) (s : string) : string :=
  match s with
  | EmptyString => EmptyString
  | String c r =>
      match rstrip_by p r with
      | EmptyString => if p c then EmptyString else String c EmptyString
      | r' => String c r'
      end
  end.

(** [s.strip()] and [s.strip(c)] for a one-character argument. *)
Definition strip (s : string) : string := rstrip_by is_space (lstrip_by is_space s).

Definition strip_char (c : ascii) (s : string) : string :=
  rstrip_by (Ascii.eqb c) (lstrip_by (Ascii.eqb c) s).

End Py.

(** ** Exceptions and the state-and-exception monad of a [try] block *)

Inductive result (A : Type) : Type :=
| Ok (a : A)
| Raise (e : string).
Arguments Ok {A} a.
Arguments Raise {A} e.

(** A block of statements running on a mutable state [S]: what it has
    written to the state stays written when it raises. [Raise e] is an
    exception of the class [Exception], named by [e]; an interrupt of
    the program from outside is not modelled. *)
Definition M (S A : Type) : Type := S -> S * result A.

Definition ret {S A} (a : A) : M S A := fun s => (s, Ok a).

Definition bind {S A B} (m : M S A) (k : A -> M S B) : M S B :=
  fun s => match m s with
           | (s', Ok a) => k a s'
           | (s', Raise e) => (s', Raise e)
           end.

Definition lift {S A} (r : result A) : M S A := fun s => (s, r).

Definition get {S} : M S S := fun s => (s, Ok s).

Definition modify {S} (f : S -> S) : M S unit := fun s => (f s, Ok tt).

(** [try: body except Exception as e: handler(str(e))]. *)
Definition try_except {S A} (body : M S A) (handler : string -> M S A) : M S A :=
  fun s => match body s with
           | (s', Ok a) => (s', Ok a)
           | (s', Raise e) => handler e s'
           end.

Declare Scope py_scope.
Delimit Scope py_scope with py.
Notation "x <- c1 ;; c2" := (bind c1 (fun x => c2))
  (at level 100, c1 at next level, right associativity) : py_scope.
Notation "c1 ;;; c2" := (bind c1 (fun _ => c2))
  (at level 100, right associativity) : py_scope.

(** ** The imaging library

    [Image.open], [img.mode], [img.convert('RGB')] and the JPEG encoder
    behind [img.save(path, "JPEG", quality=q)]. [Image_save] takes the target
    path since the write can fail for reasons of the path; on success
    it gives the bytes that were written, on failure nothing is left at
    the path. *)

Class Imaging : Type := {
  Image : Type;
  Image_open : list byte -> result Image;
  Image_mode : Image -> string;
  Image_convert_RGB : Image -> result Image;
  Image_save : Image -> string -> Z -> result (list byte)
}.

(** The step shared by both programs:
    [if img.mode in ('RGBA', 'P'): img = img.convert('RGB')]. *)
Definition normalize_mode `{Imaging} (img : Image) : result Image :=
  if String.eqb (Image_mode img) "RGBA" || String.eqb (Image_mode img) "P"
  then Image_convert_RGB img
  else Ok img.

(** ** The web application ([app.py]) *)

Module Web.

(** A werkzeug [FileStorage]: the name the client sent and the bytes
    that [file.read()] returns. *)
Record FileStorage : Type := {
  filename : string;
  stream : list byte
}.

(** [request.files], a [MultiDict], as the list of its (field, file)
    pairs in the order of the form. *)
Definition MultiDict : Type := list (string * FileStorage).

(** [key in d]. *)
Definition contains (key : string) (d : MultiDict) : bool :=
  existsb (fun kv => String.eqb (fst kv) key) d.

(** [d.getlist(key)]. *)
Definition getlist (key : string) (d : MultiDict) : list FileStorage :=
  map snd (List.filter (fun kv => String.eqb (fst kv) key) d).

(** The dicts appended to [converted_files] and [failed_files]. *)
Record converted_entry : Type := {
  original : string;
  converted : string;
  size : nat
}.

Record failed_entry : Type := {
  name : string;
  error : string
}.

(** What a view function returns: [jsonify(...)] with its status,
    [send_file(...)], or an exception that no handler caught (Flask
    answers 500). *)
Inductive response : Type :=
| JsonError (status : nat) (msg : string) (failed : option (list failed_entry))
| JsonSuccess (session_id : string) (converted_list : list converted_entry)
              (failed_list : list failed_entry) (total_converted total_failed : nat)
| SendFile (archive : list byte) (download_name : string)
| Unhandled (exception : string).

(** The content of [TEMP_DIR]: session directories, and the archives
    that [download_zip] leaves next to them. An entry of a session
    directory is a regular file or something else (a subdirectory). *)
Inductive entry : Type :=
| Regular (data : list byte)
| Subdir.

Inductive node : Type :=
| File (data : list byte)
| Dir (content : gmap string entry).

(** [os.makedirs(os.path.join(TEMP_DIR, d), exist_ok=True)]: the
    listing afterwards and the content of the directory. *)
Definition makedirs (temp : gmap string node) (d : string)
  : result (gmap string node * gmap string entry) :=
  match temp !! d with
  | None => Ok (<[d := Dir ∅]> temp, ∅)
  | Some (Dir c) => Ok (temp, c)
  | Some (File _) => Raise "FileExistsError"
  end.

(** [os.listdir] of a session directory. *)
Definition listdir (c : gmap string entry) : list string := (map_to_list c).*1.

(** The locals of [convert_files] that the loop updates, with the
    session directory it writes to. *)
Record loop_state : Type := {
  converted_files : list converted_entry;
  failed_files : list failed_entry;
  file_counter : gmap string nat;
  session_files : gmap string entry
}.

Definition append_converted (e : converted_entry) : M loop_state unit :=
  modify (fun st => {| converted_files := converted_files st ++ [e];
                       failed_files := failed_files st;
                       file_counter := file_counter st;
                       session_files := session_files st |}).

Definition append_failed (n e : string) : M loop_state unit :=
  modify (fun st => {| converted_files := converted_files st;
                       failed_files := failed_files st ++ [{| name := n; error := e |}];
                       file_counter := file_counter st;
                       session_files := session_files st |}).

Definition set_counter (b : string) (c : nat) : M loop_state unit :=
  modify (fun st => {| converted_files := converted_files st;
                       failed_files := failed_files st;
                       file_counter := <[b := c]> (file_counter st);
                       session_files := session_files st |}).

Definition write_file (n : string) (data : list byte) : M loop_state unit :=
  modify (fun st => {| converted_files := converted_files st;
                       failed_files := failed_files st;
                       file_counter := file_counter st;
                       session_files := <[n := Regular data]> (session_files st) |}).

(** [filename.lower().endswith(('.heic', '.heif'))]. *)
Definition is_heic (filename : string) : bool :=
  Py.endswith (Py.lower filename) ".heic" || Py.endswith (Py.lower filename) ".heif".

(** The duplicate handling: the output name for [base_name], and the
    registry updated. *)
Definition next_name (base_name : string) : M loop_state string :=
  (st <- get ;;
   match file_counter st !! base_name with
   | Some c =>
       set_counter base_name (S c) ;;;
       ret (base_name +:+ "_" +:+ Py.str_of_nat (S c) +:+ ".jpg")
   | None =>
       set_counter base_name 0 ;;;
       ret (base_name +:+ ".jpg")
   end)%py.

(** The name that the [k]-th request (counting from 0) for one base
    name is given: the bare name first, then the numbered ones. *)
Definition jpg_name (base_name : string) (k : nat) : string :=
  match k with
  | O => base_name +:+ ".jpg"
  | S _ => base_name +:+ "_" +:+ Py.str_of_nat k +:+ ".jpg"
  end.

(** The names that [next_name] gives out for a run of requests. *)
Fixpoint request_names (bases : list string) (st : loop_state) : list string :=
  match bases with
  | [] => []
  | b :: r =>
      match next_name b st with
      | (st', Ok n) => n :: request_names r st'
      | (_, Raise _) => []
      end
  end.

(** The names as the spec has them: each request is given the name
    for the number of earlier requests with its base name. *)
Fixpoint numbered_names (earlier bases : list string) : list string :=
  match bases with
  | [] => []
  | b :: r =>
      jpg_name b (length (List.filter (String.eqb b) earlier)) ::
      numbered_names (earlier ++ [b]) r
  end.

(** A name without a path separator: [os.path.join(session_dir, n)]
    is then an entry of the session directory itself. *)
Definition plain (n : string) : bool :=
  negb (existsb (Ascii.eqb "/"%char) (list_ascii_of_string n)).

(** [for x in l: body(x)]. *)
Fixpoint for_each {S A} (body : A -> M S unit) (l : list A) : M S unit :=
  match l with
  | [] => ret tt
  | x :: r => (body x ;;; for_each body r)%py
  end.

(** What one iteration can do to the locals: nothing (an entry
    without a name), one more failure, or one more success together
    with the file written. The registry moves on its own. *)
Inductive iteration (file : FileStorage) (st st' : loop_state) : Prop :=
| it_skipped :
    filename file = "" ->
    st' = st ->
    iteration file st st'
| it_failed (e : string) :
    filename file <> "" ->
    converted_files st' = converted_files st ->
    failed_files st' = (failed_files st ++ [{| name := filename file; error := e |}])%list ->
    session_files st' = session_files st ->
    iteration file st st'
| it_converted (jpg_filename : string) (data : list byte) :
    filename file <> "" ->
    is_heic (filename file) = true ->
    stream file <> [] ->
    converted_files st' = (converted_files st ++
      [{| original := filename file; converted := jpg_filename;
          size := length data |}])%list ->
    failed_files st' = failed_files st ->
    session_files st' = <[jpg_filename := Regular data]> (session_files st) ->
    iteration file st st'.

Section WithLibrary.
Context `{lib : Imaging}.

(** The path of [TEMP_DIR],
    [os.path.join(tempfile.gettempdir(), 'heic_converter')]. *)
Variable TEMP_DIR : string.

(** The bytes of the ZIP archive (deflate) that [zipfile.ZipFile]
    writes for the given members, each an archive name with the
    content of the file. *)
Variable ZipFile : list (string * list byte) -> list byte.

(** [img.save(jpg_path, "JPEG", quality=95)] with [jpg_path] the
    join of the session directory and the name; the name of a
    subdirectory cannot be opened for writing. The file is filed under
    its name in the session directory: this is where the code writes
    for a name without a separator ([plain] above). The name comes from
    the client as it is, and with a [/] in it the join leads out of the
    session directory; where the file lands then is not followed here,
    and what is stated of the directories is stated for plain names. *)
Definition save (session_path : string) (img : Image) (jpg_filename : string)
  : M loop_state (list byte) :=
  (st <- get ;;
   match session_files st !! jpg_filename with
   | Some Subdir => lift (Raise "IsADirectoryError")
   | _ =>
       data <- lift (Image_save img (Py.join session_path jpg_filename) 95) ;;
       write_file jpg_filename data ;;;
       ret data
   end)%py.

(** The [try] block of the loop body. *)
Definition try_body (session_path : string) (file : FileStorage) : M loop_state unit :=
  (let file_bytes := stream file in
   if (length file_bytes =? 0)%nat then
     append_failed (filename file) "Empty file"
   else
     img <- lift (Image_open file_bytes) ;;
     img <- lift (normalize_mode img) ;;
     let base_name := fst (Py.splitext (filename file)) in
     jpg_filename <- next_name base_name ;;
     data <- save session_path img jpg_filename ;;
     append_converted {| original := filename file;
                         converted := jpg_filename;
                         size := length data |})%py.

(** The body of [for file in files]. *)
Definition loop_body (session_path : string) (file : FileStorage) : M loop_state unit :=
  if String.eqb (filename file) "" then ret tt
  else if negb (is_heic (filename file)) then
    append_failed (filename file) "Not a HEIC/HEIF file"
  else
    try_except (try_body session_path file) (fun e => append_failed (filename file) e).

Definition initial_state (c : gmap string entry) : loop_state :=
  {| converted_files := []; failed_files := [];
     file_counter := ∅; session_files := c |}.

(** The state of the locals when the loop is over. *)
Definition run_loop (session_path : string) (files : list FileStorage)
    (c : gmap string entry) : loop_state :=
  fst (for_each (loop_body session_path) files (initial_state c)).

(** [convert_files], the view of [POST /convert]. [uuid4] is the
    value of [str(uuid.uuid4())] in this request; the function
    gives the listing of [TEMP_DIR] afterwards and the response. *)
Definition convert_files (uuid4 : string) (request_files : MultiDict)
    (temp : gmap string node) : gmap string node * response :=
  if negb (contains "files" request_files) then
    (temp, JsonError 400 "No files uploaded" None)
  else
    let files := getlist "files" request_files in
    if (length files =? 0)%nat || forallb (fun f => String.eqb (filename f) "") files then
      (temp, JsonError 400 "No files selected" None)
    else
      let session_id := uuid4 in
      let session_dir := Py.join TEMP_DIR session_id in
      match makedirs temp session_id with
      | Raise e => (temp, Unhandled e)
      | Ok (temp1, c) =>
          let st := run_loop session_dir files c in
          let temp2 := <[session_id := Dir (session_files st)]> temp1 in
          if (length (converted_files st) =? 0)%nat then
            (temp2, JsonError 400 "No files were converted" (Some (failed_files st)))
          else
            (temp2, JsonSuccess session_id (converted_files st) (failed_files st)
                      (length (converted_files st)) (length (failed_files st)))
      end.

(** The members that the loop of [download_zip] adds: for each name
    of the listing that is a regular file, the name as it is and
    the content. *)
Definition zip_members (c : gmap string entry) (files_to_zip : list string)
  : list (string * list byte) :=
  omap (fun n => match c !! n with
                 | Some (Regular data) => Some (n, data)
                 | _ => None
                 end) files_to_zip.

(** [download_zip], the view of [GET /download/<session_id>];
    [session_id] is one path segment, not [.] or [..]. *)
Definition download_zip (session_id : string) (temp : gmap string node)
  : gmap string node * response :=
  match temp !! session_id with
  | None => (temp, JsonError 404 "Session not found or expired" None)
  | Some (File _) => (temp, Unhandled "NotADirectoryError")
  | Some (Dir c) =>
      let files_to_zip := listdir c in
      if (length files_to_zip =? 0)%nat then
        (temp, JsonError 404 "No files to download" None)
      else
        let zip_name := session_id +:+ ".zip" in
        match temp !! zip_name with
        | Some (Dir _) => (temp, Unhandled "IsADirectoryError")
        | _ =>
            let archive := ZipFile (zip_members c files_to_zip) in
            (<[zip_name := File archive]> temp,
             SendFile archive "converted_images.zip")
        end
  end.



(** The loop, one iteration after the other. *)
Definition run_from (sp : string) (files : list FileStorage) (st : loop_state)
  : loop_state :=
  fst (for_each (loop_body sp) files st).

End WithLibrary.

(** The base name under which the registry knows a record. *)
Definition base_of (e : converted_entry) : string := fst (Py.splitext (original e)).

(** The number of the next output name for a base name. *)
Definition next_number (counter : gmap string nat) (b : string) : nat :=
  match counter !! b with
  | Some c => S c
  | None => 0
  end.

(** Every record has a numbered name that the registry has reached,
    and a higher number than the earlier records of its base name. *)
Definition numbered (st : loop_state) : Prop :=
  forall i e, converted_files st !! i = Some e ->
    exists k c,
      converted e = jpg_name (base_of e) k /\
      file_counter st !! base_of e = Some c /\ (k <= c)%nat /\
      forall j e', (j < i)%nat -> converted_files st !! j = Some e' ->
        base_of e' = base_of e ->
        exists k', converted e' = jpg_name (base_of e) k' /\ (k' < k)%nat.

(** The session directory holds regular files only, one under the
    output name of each record, with the size that a record of the name
    reports. *)
Definition session_matches (st : loop_state) : Prop :=
  (forall n ent, session_files st !! n = Some ent ->
     exists data e, ent = Regular data /\ e ∈ converted_files st /\
                    converted e = n /\ size e = length data) /\
  (forall e, e ∈ converted_files st -> is_Some (session_files st !! converted e)).

(** A request-level error: the JSON error body with its status. *)
Definition request_error (r : response) : bool :=
  match r with
  | JsonError _ _ _ => true
  | _ => false
  end.

(** The request carries an entry with a name. *)
Definition has_named_file (files : list FileStorage) : bool :=
  existsb (fun f => negb (String.eqb (filename f) "")) files.

Definition named_files (files : list FileStorage) : list FileStorage :=
  List.filter (fun f => negb (String.eqb (filename f) "")) files.

End Web.

(** ** The command-line tool ([convert_heic_cli.py]) *)

Module Cli.

(** *** [pathlib] paths (the POSIX flavour) *)

(** A [Path] as its [parts]; an absolute path starts with the part
    ["/"]. *)
Definition Path : Type := list string.

Fixpoint split_on (c : ascii) (s : string) : list string :=
  match s with
  | EmptyString => [EmptyString]
  | String d r =>
      if Ascii.eqb d c then EmptyString :: split_on c r
      else match split_on c r with
           | h :: t => String d h :: t
           | [] => [String d EmptyString]
           end
  end.

(** [Path(s)]: empty and [.] components are dropped. *)
Definition Path_of_str (s : string) : Path :=
  (if String.prefix "/" s then ["/"] else []) ++
  List.filter (fun c => negb (String.eqb c "") && negb (String.eqb c "."))
              (split_on "/"%char s).

Fixpoint join_parts (l : list string) : string :=
  match l with
  | [] => ""
  | [x] => x
  | x :: r => x +:+ "/" +:+ join_parts r
  end.

(** [str(p)]. *)
Definition str (p : Path) : string :=
  match p with
  | [] => "."
  | "/" :: r => "/" +:+ join_parts r
  | _ => join_parts p
  end.

(** [p.name], [p.parent], [p.stem] and [p / name]. *)
Definition name (p : Path) : string :=
  match p with
  | ["/"] => ""
  | _ => List.last p ""
  end.

Definition parent (p : Path) : Path :=
  match p with
  | ["/"] => p
  | _ => removelast p
  end.

Definition stem (p : Path) : string :=
  let n := name p in
  let i := Py.rfind "."%char n in
  if (0 <? i)%Z && (i <? Z.of_nat (String.length n) - 1)%Z
  then Py.slice n 0 (Z.to_nat i)
  else n.

Definition div (p : Path) (child : string) : Path := p ++ [child].

(** The order of [sorted] on paths: part by part, a part by code
    points. *)
Fixpoint Path_compare (p q : Path) : comparison :=
  match p, q with
  | [], [] => Eq
  | [], _ :: _ => Lt
  | _ :: _, [] => Gt
  | a :: p', b :: q' =>
      match String.compare a b with
      | Eq => Path_compare p' q'
      | c => c
      end
  end.

Definition Path_le (p q : Path) : Prop := Path_compare p q <> Gt.

#[global] Instance Path_le_dec p q : Decision (Path_le p q).
Proof. unfold Path_le. apply _. Defined.

(** *** The file system and the terminal *)

Inductive fnode : Type :=
| FFile (data : list byte)
| FDir.

(** The entries of the file system, in the order in which a scan
    enumerates them. *)
Definition FS : Type := list (Path * fnode).

Fixpoint fs_lookup (fs : FS) (p : Path) : option fnode :=
  match fs with
  | [] => None
  | (q, n) :: r => if decide (q = p) then Some n else fs_lookup r p
  end.

Fixpoint fs_write (fs : FS) (p : Path) (n : fnode) : FS :=
  match fs with
  | [] => [(p, n)]
  | (q, m) :: r => if decide (q = p) then (p, n) :: r else (q, m) :: fs_write r p n
  end.

(** What is at a path: the entry listed under the path as it is
    written. The current directory and the root are always there. The
    system resolves a part [..] while pathlib keeps it, so the listing
    answers for the paths without such a part ([dotdot_free] below).
    One file has one path here: links are not modelled, nor is a path
    from the root to an entry that is listed under the current
    directory. *)
Definition stat (fs : FS) (p : Path) : option fnode :=
  match p with
  | [] | ["/"] => Some FDir
  | _ => fs_lookup fs p
  end.

Definition exists_ (fs : FS) (p : Path) : bool :=
  match stat fs p with Some _ => true | None => false end.

Definition is_file (fs : FS) (p : Path) : bool :=
  match stat fs p with Some (FFile _) => true | _ => false end.

Definition is_dir (fs : FS) (p : Path) : bool :=
  match stat fs p with Some FDir => true | _ => false end.


Record state : Type := {
  fs : FS;
  stdout : list string
}.

Definition print (line : string) : M state unit :=
  modify (fun st => {| fs := fs st; stdout := stdout st ++ [line] |}).

Definition set_fs (f : FS -> FS) : M state unit :=
  modify (fun st => {| fs := f (fs st); stdout := stdout st |}).

(** *** What the system refuses

    [os.stat], [os.mkdir] and [open] fail for reasons that the listing
    of the file system does not show: a name that is too long
    ([ENAMETOOLONG]), a directory that may not be searched or written
    to, a file that may not be read ([EACCES]), a device that does not
    answer. [refused p] is the error with which the system stops at [p]
    when it walks a path that leads through [p], [mkdir_error p] the
    error with which it refuses to make the directory [p] where nothing
    is in the way, and [open_error p] the error with which it refuses
    to open the file [p] for reading. A run changes none of them. *)
Class OS : Type := {
  refused : Path -> option string;
  mkdir_error : Path -> option string;
  open_error : Path -> option string
}.

(** The error of [os.stat(p)] that pathlib raises again: the system
    walks the path part by part and fails at the first part at which it
    is stopped. (A path that is not there, [ENOENT] or [ENOTDIR], is no
    error for [exists()], [is_file()] and [is_dir()]: they answer
    [False].) *)
Definition stat_error `{OS} (p : Path) : option string :=
  head (omap (fun k => refused (take k p)) (seq 1 (length p))).

Section WithSystem.
Context `{os : OS}.

(** [p.exists()], [p.is_file()] and [p.is_dir()]: the error of
    [os.stat], or the answer of the file system. *)
Definition Path_exists (p : Path) : M state bool :=
  fun st => match stat_error p with
            | Some e => (st, Raise e)
            | None => (st, Ok (exists_ (fs st) p))
            end.

Definition Path_is_file (p : Path) : M state bool :=
  fun st => match stat_error p with
            | Some e => (st, Raise e)
            | None => (st, Ok (is_file (fs st) p))
            end.

Definition Path_is_dir (p : Path) : M state bool :=
  fun st => match stat_error p with
            | Some e => (st, Raise e)
            | None => (st, Ok (is_dir (fs st) p))
            end.

(** [d.mkdir(parents=True, exist_ok=True)]: the missing ancestors
    and [d] are made, outermost first. A file in the way raises, and
    so does a part at which the system stops or which it refuses to
    make; the directories made before that stay. *)
Fixpoint mkdir_prefixes (d : Path) (n : nat) (fs : FS) : FS * result unit :=
  match n with
  | O => (fs, Ok tt)
  | S n' =>
      match mkdir_prefixes d n' fs with
      | (fs', Raise e) => (fs', Raise e)
      | (fs', Ok _) =>
          let q := take n d in
          match stat_error q with
          | Some e => (fs', Raise e)
          | None =>
              match stat fs' q with
              | Some FDir => (fs', Ok tt)
              | Some (FFile _) =>
                  (fs', Raise (if (n =? length d)%nat then "FileExistsError"
                               else "NotADirectoryError"))
              | None =>
                  match mkdir_error q with
                  | Some e => (fs', Raise e)
                  | None => (fs_write fs' q FDir, Ok tt)
                  end
              end
          end
      end
  end.

Definition mkdir (d : Path) : M state unit :=
  fun st => let (fs', r) := mkdir_prefixes d (length d) (fs st) in
            ({| fs := fs'; stdout := stdout st |}, r).

End WithSystem.

(** The [output_dir] argument of [convert_heic_to_jpg]: a [str] (from
    the command line) or a [Path] (from [convert_folder]). *)
Inductive dir_arg : Type :=
| DirStr (s : string)
| DirPath (p : Path).

(** [if output_dir:], on [None], a [str] or a [Path]. *)
Definition truthy (d : option dir_arg) : bool :=
  match d with
  | None => false
  | Some (DirStr s) => negb (String.eqb s "")
  | Some (DirPath _) => true
  end.

Definition Path_of_arg (d : dir_arg) : Path :=
  match d with
  | DirStr s => Path_of_str s
  | DirPath p => p
  end.

(** The path at which [convert_heic_to_jpg] looks for, and writes, the
    JPG of [heic_path]. *)
Definition jpg_target (heic_path : Path) (output_dir : option dir_arg) : Path :=
  div (match output_dir with
       | Some d => if truthy output_dir then Path_of_arg d else parent heic_path
       | None => parent heic_path
       end)
      (stem heic_path +:+ ".jpg").

(** The line that reports a file whose target is there. *)
Definition skipped_line (heic_path : Path) : string :=
  "  Skipped (exists): " +:+ stem heic_path +:+ ".jpg".




(** What is there stays there, as it is. *)
Definition preserved (fs fs' : FS) : Prop :=
  forall p n, fs_lookup fs p = Some n -> fs_lookup fs' p = Some n.

(** What was there is there, and a file that was not there has a name
    that ends in [.jpg]. *)
Definition only_jpg_created (st st' : state) : Prop :=
  preserved (fs st) (fs st') /\
  forall p data, fs_lookup (fs st') p = Some (FFile data) ->
    fs_lookup (fs st) p = Some (FFile data) \/
    (fs_lookup (fs st) p = None /\ Py.endswith (name p) ".jpg" = true).

(** A block all of whose runs take a state to a state in relation
    [R] with it. *)
Definition steps (R : state -> state -> Prop) {A} (m : M state A) : Prop :=
  forall st, R st (fst (m st)).

(** *** Scanning a folder *)

(** [fnmatch] of a name against the pattern [*suffix], as the POSIX
    flavour does it: letter case counts. *)
Definition fnmatch_star (suffix n : string) : bool := Py.endswith n suffix.

Definition is_child (folder p : Path) : bool :=
  (length p =? S (length folder))%nat && bool_decide (take (length folder) p = folder).

Definition is_descendant (folder p : Path) : bool :=
  (length folder <? length p)%nat && bool_decide (take (length folder) p = folder).

(** [list(folder.glob("*" + suffix))] and
    [list(folder.rglob("*" + suffix))]: the entries right under the
    folder, or anywhere below it, whose name matches, in scan
    order. *)
Definition glob (fs : FS) (folder : Path) (suffix : string) : list Path :=
  List.filter (fun p => is_child folder p && fnmatch_star suffix (name p)) (map fst fs).

Definition rglob (fs : FS) (folder : Path) (suffix : string) : list Path :=
  List.filter (fun p => is_descendant folder p && fnmatch_star suffix (name p)) (map fst fs).

(** The key under which the loop that removes duplicates knows a
    path. *)
Definition seen_key (f : Path) : string := Py.lower (str f).

(** The loop that removes duplicates, with its [seen] set. *)
Fixpoint remove_duplicates (seen : gset string) (heic_files : list Path) : list Path :=
  match heic_files with
  | [] => []
  | f :: r =>
      if decide (Py.lower (str f) ∈ seen) then remove_duplicates seen r
      else f :: remove_duplicates ({[Py.lower (str f)]} ∪ seen) r
  end.

(** [sorted(heic_files)]. *)
Definition sorted (l : list Path) : list Path := merge_sort Path_le l.

Definition nl : string := String (ascii_of_nat 10) EmptyString.

Section WithLibrary.
Context `{lib : Imaging} `{os : OS}.

(** [Image.open(heic_path)]: the file is opened for reading and the
    library is given its content. *)
Definition open_result (fs : FS) (heic_path : Path) : result Image :=
  match stat fs heic_path with
  | Some (FFile data) =>
      match open_error heic_path with
      | Some e => Raise e
      | None => Image_open data
      end
  | Some FDir => Raise "IsADirectoryError"
  | None => Raise "FileNotFoundError"
  end.

Definition open_path (heic_path : Path) : M state Image :=
  fun st => (st, open_result (fs st) heic_path).

(** [img.save(jpg_path, "JPEG", quality=quality)]; the directory of
    [jpg_path] is there: it was just made, or it holds the
    source. *)
Definition save (img : Image) (jpg_path : Path) (quality : Z) : M state unit :=
  (data <- lift (Image_save img (str jpg_path) quality) ;;
   set_fs (fun fs => fs_write fs jpg_path (FFile data)))%py.

(** The block that determines the output path: the directory
    asked for, made if need be, or the directory of the source. *)
Definition determine_output (heic_path : Path) (output_dir : option dir_arg)
  : M state Path :=
  match output_dir with
  | Some d =>
      if truthy output_dir then
        (mkdir (Path_of_arg d) ;;; ret (Path_of_arg d))%py
      else ret (parent heic_path)
  | None => ret (parent heic_path)
  end.

(** The [try] block of [convert_heic_to_jpg] and its handler. *)
Definition try_block (heic_path jpg_path : Path) (jpg_filename : string) (quality : Z)
  : M state (option Path) :=
  (img <- open_path heic_path ;;
   img <- lift (normalize_mode img) ;;
   save img jpg_path quality ;;;
   print ("  Converted: " +:+ name heic_path +:+ " -> " +:+ jpg_filename) ;;;
   ret (Some jpg_path))%py.

Definition except_block (heic_path : Path) (e : string) : M state (option Path) :=
  (print ("  Failed: " +:+ name heic_path +:+ " - " +:+ e) ;;;
   ret None)%py.

(** [convert_heic_to_jpg]: the path of the JPG, or [None]. *)
Definition convert_heic_to_jpg (heic_path : Path) (output_dir : option dir_arg)
    (quality : Z) : M state (option Path) :=
  (found <- Path_exists heic_path ;;
   if negb found then
     print ("  Error: File not found - " +:+ str heic_path) ;;;
     ret None
   else
     output_dir <- determine_output heic_path output_dir ;;
     let jpg_filename := stem heic_path +:+ ".jpg" in
     let jpg_path := div output_dir jpg_filename in
     there <- Path_exists jpg_path ;;
     if there then
       print ("  Skipped (exists): " +:+ jpg_filename) ;;;
       ret (Some jpg_path)
     else
       try_except (try_block heic_path jpg_path jpg_filename quality)
                  (except_block heic_path))%py.

(** The loop of [convert_folder] over the sorted files, with its
    two counters. *)
Fixpoint folder_loop (files : list Path) (create_subfolder : bool) (quality : Z)
    (converted failed : nat) : M state (nat * nat) :=
  match files with
  | [] => ret (converted, failed)
  | heic_file :: r =>
      (let output_dir := if create_subfolder then div (parent heic_file) "jpg files"
                         else parent heic_file in
       result <- convert_heic_to_jpg heic_file (Some (DirPath output_dir)) quality ;;
       match result with
       | Some _ => folder_loop r create_subfolder quality (S converted) failed
       | None => folder_loop r create_subfolder quality converted (S failed)
       end)%py
  end.

(** The files that [convert_folder] goes on to convert, before they
    are sorted. *)
Definition find_heic_files (fs : FS) (folder_path : Path) (recursive : bool)
  : list Path :=
  let heic_files :=
    if recursive then
      (rglob fs folder_path ".heic" ++ rglob fs folder_path ".HEIC") ++
      (rglob fs folder_path ".heif" ++ rglob fs folder_path ".HEIF")
    else
      (glob fs folder_path ".heic" ++ glob fs folder_path ".HEIC") ++
      (glob fs folder_path ".heif" ++ glob fs folder_path ".HEIF") in
  remove_duplicates ∅ heic_files.

(** [convert_folder]: the pair [(converted, failed)]. *)
Definition convert_folder (folder_path : Path) (recursive create_subfolder : bool)
    (quality : Z) : M state (nat * nat) :=
  (found <- Path_exists folder_path ;;
   if negb found then
     print ("Error: Folder not found - " +:+ str folder_path) ;;;
     ret (0, 0)%nat
   else
     st <- get ;;
     let heic_files := find_heic_files (fs st) folder_path recursive in
     if (length heic_files =? 0)%nat then
       print ("No HEIC files found in: " +:+ str folder_path) ;;;
       ret (0, 0)%nat
     else
       print (nl +:+ "Processing: " +:+ str folder_path) ;;;
       print ("Found " +:+ Py.str_of_nat (length heic_files) +:+ " HEIC file(s)") ;;;
       counts <- folder_loop (sorted heic_files) create_subfolder quality 0 0 ;;
       print ("Completed: " +:+ Py.str_of_nat (fst counts) +:+ " converted, " +:+
              Py.str_of_nat (snd counts) +:+ " failed") ;;;
       ret counts)%py.

(** The parsed command line. *)
Record args : Type := {
  paths : list string;
  recursive : bool;
  output : option string;
  quality : Z;
  no_subfolder : bool
}.

(** The loop of [main] over [args.paths], with the two totals. *)
Fixpoint main_loop (a : args) (ps : list string) (total_converted total_failed : nat)
  : M state (nat * nat) :=
  match ps with
  | [] => ret (total_converted, total_failed)
  | path :: r =>
      (let path := Path_of_str path in
       file <- Path_is_file path ;;
       if file then
         result <- convert_heic_to_jpg path (option_map DirStr (output a)) (quality a) ;;
         match result with
         | Some _ => main_loop a r (S total_converted) total_failed
         | None => main_loop a r total_converted (S total_failed)
         end
       else
         dir <- Path_is_dir path ;;
         if dir then
           counts <- convert_folder path (recursive a) (negb (no_subfolder a)) (quality a) ;;
           main_loop a r (total_converted + fst counts) (total_failed + snd counts)
         else
           print ("Warning: Path not found - " +:+ str path) ;;;
           main_loop a r total_converted total_failed)%py
  end.

Definition rule : string := "==================================================".

(** [main] when paths are given: the totals of the [TOTAL] line.
    Without a path [main] hands over to [interactive_mode], which
    reads its commands from the terminal ([cli_main] below). *)
Definition main (a : args) : M state (option (nat * nat)) :=
  match paths a with
  | [] => ret None
  | _ =>
      (totals <- main_loop a (paths a) 0 0 ;;
       print (nl +:+ rule) ;;;
       print ("TOTAL: " +:+ Py.str_of_nat (fst totals) +:+ " converted, " +:+
              Py.str_of_nat (snd totals) +:+ " failed") ;;;
       print rule ;;;
       ret (Some totals))%py
  end.

(** *** Interactive mode *)

(** [input(prompt)] writes the prompt; the line it reads is taken from
    the lines of the terminal input, which the loop below goes
    through. *)
Definition prompt (text : string) : M state unit := print text.

(** The character in [.strip(...)] of the paths typed in. *)
Definition quote : ascii := ascii_of_nat 34.

Definition menu : M state unit :=
  (print (nl +:+ "Options:") ;;;
   print "  1. Convert a single file" ;;;
   print "  2. Convert a folder" ;;;
   print "  3. Convert a folder (recursive - includes subfolders)" ;;;
   print "  4. Exit" ;;;
   prompt (nl +:+ "Enter choice (1-4): "))%py.

(** The answer to the question about the subfolder:
    [subfolder != 'n'], on the answer stripped and in lower case. *)
Definition subfolder_answer (line : string) : bool :=
  negb (String.eqb (Py.lower (Py.strip line)) "n").

(** The [while True] loop of [interactive_mode] over the lines still to
    be read; [input] at the end of the input raises [EOFError], which
    nothing catches. *)
Fixpoint interactive_loop (lines : list string) {struct lines} : M state unit :=
  (menu ;;;
   match lines with
   | [] => lift (Raise "EOFError")
   | line :: rest =>
       let choice := Py.strip line in
       if String.eqb choice "1" then
         prompt "Enter HEIC file path: " ;;;
         match rest with
         | [] => lift (Raise "EOFError")
         | line :: rest =>
             let file_path := Py.strip_char quote (Py.strip line) in
             if negb (String.eqb file_path "") then
               prompt "Output directory (press Enter for same folder): " ;;;
               match rest with
               | [] => lift (Raise "EOFError")
               | line :: rest =>
                   let output_dir := Py.strip_char quote (Py.strip line) in
                   convert_heic_to_jpg (Path_of_str file_path)
                     (if String.eqb output_dir "" then None else Some (DirStr output_dir))
                     95 ;;;
                   interactive_loop rest
               end
             else interactive_loop rest
         end
       else if String.eqb choice "2" then
         prompt "Enter folder path: " ;;;
         match rest with
         | [] => lift (Raise "EOFError")
         | line :: rest =>
             let folder_path := Py.strip_char quote (Py.strip line) in
             if negb (String.eqb folder_path "") then
               prompt "Create 'jpg files' subfolder? (y/n, default: y): " ;;;
               match rest with
               | [] => lift (Raise "EOFError")
               | line :: rest =>
                   let create_subfolder := subfolder_answer line in
                   convert_folder (Path_of_str folder_path) false create_subfolder 95 ;;;
                   interactive_loop rest
               end
             else interactive_loop rest
         end
       else if String.eqb choice "3" then
         prompt "Enter folder path: " ;;;
         match rest with
         | [] => lift (Raise "EOFError")
         | line :: rest =>
             let folder_path := Py.strip_char quote (Py.strip line) in
             if negb (String.eqb folder_path "") then
               prompt "Create 'jpg files' subfolder? (y/n, default: y): " ;;;
               match rest with
               | [] => lift (Raise "EOFError")
               | line :: rest =>
                   let create_subfolder := subfolder_answer line in
                   convert_folder (Path_of_str folder_path) true create_subfolder 95 ;;;
                   interactive_loop rest
               end
             else interactive_loop rest
         end
       else if String.eqb choice "4" then
         print "Goodbye!"
       else
         print "Invalid choice. Please enter 1-4." ;;;
         interactive_loop rest
   end)%py.

(** [interactive_mode], reading the given lines. *)
Definition interactive_mode (lines : list string) : M state unit :=
  (print (nl +:+ rule) ;;;
   print "HEIC to JPG Converter - Interactive Mode" ;;;
   print rule ;;;
   interactive_loop lines)%py.

(** [main] as a whole: with no path it is [interactive_mode] on the
    lines of the terminal input. *)
Definition cli_main (a : args) (lines : list string) : M state (option (nat * nat)) :=
  match paths a with
  | [] => (interactive_mode lines ;;; ret None)%py
  | _ => main a
  end.

End WithLibrary.

End Cli.

(** ** A small imaging library for closed examples

    It opens every non-empty input, as an image of mode [RGB] whose
    encoding is the input itself, and rejects the empty input as Pillow
    does. *)
Module Sample.

Definition library : Imaging := {|
  Image := list byte;
  Image_open := fun data =>
    match data with
    | [] => Raise "cannot identify image file"
    | _ => Ok data
    end;
  Image_mode := fun _ => "RGB";
  Image_convert_RGB := fun img => Ok img;
  Image_save := fun img _ _ => Ok img
|}.

(** A system that stops at a name of more than 255 bytes, as Linux
    does, and at nothing else. *)
Definition os : Cli.OS := {|
  Cli.refused := fun p =>
    if (255 <? String.length (List.last p ""))%nat then Some "OSError" else None;
  Cli.mkdir_error := fun _ => None;
  Cli.open_error := fun _ => None
|}.

(** A name of 253 bytes: with an extension of four bytes it is too
    long for that system. *)
Definition long_name : string := string_of_list_ascii (repeat "a"%char 253).

Definition TEMP_DIR : string := "/tmp/heic_converter".

(** A stand-in for the archive writer: the members one after the
    other. *)
Definition ZipFile (members : list (string * list byte)) : list byte :=
  concat (map snd members).

Definition photo : list byte := [x00; x01; x02].

(** An entry of the form field [files]. *)
Definition upload (n : string) (data : list byte) : string * Web.FileStorage :=
  ("files", {| Web.filename := n; Web.stream := data |}).

(** A folder with a HEIC file and a JPG. *)
Definition photos : Cli.state :=
  {| Cli.fs := [(["photos"], Cli.FDir); (["photos"; "x.heic"], Cli.FFile photo);
                (["photos"; "old.jpg"], Cli.FFile [xff])];
     Cli.stdout := [] |}.

(** The command line [convert_heic_cli.py [-o out] paths...]. *)
Definition run_args (ps : list string) (out : option string) : Cli.args :=
  {| Cli.paths := ps; Cli.recursive := false; Cli.output := out; Cli.quality := 95;
     Cli.no_subfolder := false |}.

End Sample.

(** * Properties of the web application *)

Module WebProps.
Import Web.

Section WithLibrary.
Context `{lib : Imaging}.
Variable TEMP_DIR : string.

(** *** One iteration of the loop *)

Ltac step_monad :=
  cbv [bind lift next_name save get set_counter write_file
       append_converted append_failed modify ret try_except];
  cbn [fst snd converted_files failed_files file_counter session_files].

Lemma loop_body_ok sp file st : snd (loop_body sp file st) = Ok tt.
Proof.
  unfold loop_body.
  destruct (String.eqb _ _); [reflexivity|].
  destruct (negb _); [reflexivity|].
  unfold try_except, try_body.
  destruct (length (stream file) =? 0)%nat; [reflexivity|].
  step_monad.
  destruct (Image_open _); [|reflexivity].
  destruct (normalize_mode _); [|reflexivity].
  destruct (file_counter st !! _); cbn;
    (destruct (session_files st !! _) as [[]|]; cbn; try reflexivity;
     destruct (Image_save _ _ _); reflexivity).
Qed.

Lemma loop_body_iteration sp file st :
  iteration file st (fst (loop_body sp file st)).
Proof.
  unfold loop_body.
  destruct (String.eqb_spec (filename file) "") as [Hn|Hn];
    [by apply it_skipped|].
  destruct (is_heic (filename file)) eqn:Hh; cbn [negb];
    [|by eapply it_failed].
  unfold try_except, try_body.
  destruct (stream file) as [|b bs] eqn:Hs; cbn [length Nat.eqb];
    [by eapply it_failed|].
  step_monad.
  destruct (Image_open _); [|by eapply it_failed].
  destruct (normalize_mode _); [|by eapply it_failed].
  destruct (file_counter st !! _); cbn;
    (destruct (session_files st !! _) as [[]|]; cbn;
     try destruct (Image_save _ _ _); cbn;
     solve [ eapply it_converted; cbn; try done; congruence
           | by eapply it_failed ]).
Qed.

Lemma run_from_nil sp st : run_from sp [] st = st.
Proof. reflexivity. Qed.

Lemma run_from_cons sp file files st :
  run_from sp (file :: files) st = run_from sp files (fst (loop_body sp file st)).
Proof.
  unfold run_from; cbn [for_each]. unfold bind.
  pose proof (loop_body_ok sp file st) as Hok.
  destruct (loop_body sp file st) as [st1 r]; cbn in *. by subst r.
Qed.

(** Induction over the iterations of the loop, for a property of
    the state before and after. *)
Lemma run_from_ind (P : list FileStorage -> loop_state -> loop_state -> Prop) :
  (forall st, P [] st st) ->
  (forall file files st st1 st2,
      iteration file st st1 -> P files st1 st2 -> P (file :: files) st st2) ->
  forall sp files st, P files st (run_from sp files st).
Proof.
  intros Hnil Hcons sp files. induction files as [|file files IH]; intros st.
  - apply Hnil.
  - rewrite run_from_cons. eapply Hcons; [apply loop_body_iteration | apply IH].
Qed.

Lemma run_loop_run_from sp files c :
  run_loop sp files c = run_from sp files (initial_state c).
Proof. reflexivity. Qed.

(** Every entry with a name leaves exactly one record, in one of the
    two lists. *)
Lemma run_from_counts sp files st :
  (length (converted_files (run_from sp files st)) +
   length (failed_files (run_from sp files st)) =
   length (converted_files st) + length (failed_files st) +
   length (named_files files))%nat.
Proof.
  apply (run_from_ind (fun files st st' =>
    length (converted_files st') + length (failed_files st') =
    length (converted_files st) + length (failed_files st) +
    length (named_files files))%nat); clear.
  - intros st. cbn. lia.
  - intros file files st st1 st2 Hit IH. rewrite IH. unfold named_files. cbn [List.filter].
    destruct Hit as [Hn ->|e Hn Hc Hf _|jpg data Hn _ _ Hc Hf _].
    + rewrite Hn. cbn. lia.
    + rewrite Hc, Hf, length_app. apply String.eqb_neq in Hn. rewrite Hn. cbn. lia.
    + rewrite Hc, Hf, length_app. apply String.eqb_neq in Hn. rewrite Hn. cbn. lia.
Qed.

(** No record carries the empty name. *)
Lemma run_from_named sp files st :
  Forall (fun e => original e <> "") (converted_files st) ->
  Forall (fun e => name e <> "") (failed_files st) ->
  Forall (fun e => original e <> "") (converted_files (run_from sp files st)) /\
  Forall (fun e => name e <> "") (failed_files (run_from sp files st)).
Proof.
  apply (run_from_ind (fun files st st' =>
    Forall (fun e => original e <> "") (converted_files st) ->
    Forall (fun e => name e <> "") (failed_files st) ->
    Forall (fun e => original e <> "") (converted_files st') /\
    Forall (fun e => name e <> "") (failed_files st'))); clear.
  - auto.
  - intros file files st st1 st2 Hit IH Hc Hf. apply IH.
    + destruct Hit as [_ ->|e _ Hc1 _ _|jpg data Hn _ _ Hc1 _ _]; [done|by rewrite Hc1|].
      rewrite Hc1. apply Forall_app. split; [done|]. by constructor.
    + destruct Hit as [_ ->|e Hn _ Hf1 _|jpg data _ _ _ _ Hf1 _]; [done| |by rewrite Hf1].
      rewrite Hf1. apply Forall_app. split; [done|]. by constructor.
Qed.

(** The list of successes only grows, and the session directory
    changes only with it. *)
Lemma run_from_session_files sp files st :
  exists more,
    converted_files (run_from sp files st) = (converted_files st ++ more)%list /\
    (more = [] -> session_files (run_from sp files st) = session_files st).
Proof.
  apply (run_from_ind (fun files st st' =>
    exists more, converted_files st' = (converted_files st ++ more)%list /\
                 (more = [] -> session_files st' = session_files st))); clear.
  - intros st. exists []. by rewrite app_nil_r.
  - intros file files st st1 st2 Hit (more & Hc2 & Hs2).
    destruct Hit as [_ ->|e _ Hc1 _ Hs1|jpg data _ _ _ Hc1 _ _].
    + by exists more.
    + exists more. rewrite Hc2, Hc1. split; [done|]. intros ->. by rewrite Hs2, Hs1.
    + eexists (_ :: more). rewrite Hc2, Hc1, <- app_assoc. split; [done|]. discriminate.
Qed.

(** *** The registry of file names *)

Lemma request_names_numbered earlier bases st :
  (forall b, file_counter st !! b =
             match length (List.filter (String.eqb b) earlier) with
             | O => None
             | S k => Some k
             end) ->
  request_names bases st = numbered_names earlier bases.
Proof.
  revert earlier st. induction bases as [|b bases IH]; intros earlier st Hreg; [done|].
  cbn [request_names numbered_names]. unfold next_name.
  cbv [bind get set_counter modify ret]. cbn [file_counter].
  rewrite (Hreg b).
  destruct (length (List.filter (String.eqb b) earlier)) as [|k] eqn:Hk; cbn [jpg_name];
    f_equal; apply IH; intros c; cbn [file_counter];
    rewrite List.filter_app, length_app; cbn [List.filter];
    (destruct (String.eqb_spec c b) as [->|Hne];
     [rewrite lookup_insert_eq, Hk; cbn; f_equal; lia
     |rewrite lookup_insert_ne by done; rewrite Hreg; cbn; by rewrite Nat.add_0_r]).
Qed.

(** In a batch the first request for a base name is given the bare
    name and the [k]-th one after it the suffix [_k]. *)
Lemma request_names_initial c bases :
  request_names bases (initial_state c) = numbered_names [] bases.
Proof. apply request_names_numbered. intros b. cbn. apply lookup_empty. Qed.

Lemma list_ascii_of_string_app (a b : string) :
  list_ascii_of_string (a +:+ b) = list_ascii_of_string a ++ list_ascii_of_string b.
Proof.
  induction a as [|c a IH]; [done|].
  change (c :: list_ascii_of_string (a +:+ b) =
          c :: list_ascii_of_string a ++ list_ascii_of_string b).
  by rewrite IH.
Qed.

Lemma string_app_inv_tail (a b s : string) : a +:+ s = b +:+ s -> a = b.
Proof.
  intros Heq. apply (f_equal list_ascii_of_string) in Heq.
  rewrite !list_ascii_of_string_app in Heq. apply app_inv_tail in Heq.
  apply (f_equal string_of_list_ascii) in Heq.
  by rewrite !string_of_list_ascii_of_string in Heq.
Qed.

(** The names given for one base name differ from one another. *)
Lemma jpg_name_inj base_name : Inj (=) (=) (jpg_name base_name).
Proof.
  intros [|j] [|k]; unfold jpg_name; intros Heq; [done| | |].
  - apply (inj (String.app _)) in Heq. discriminate Heq.
  - apply (inj (String.app _)) in Heq. discriminate Heq.
  - apply (inj (String.app base_name)) in Heq.
    apply (inj (String.app "_")) in Heq.
    apply string_app_inv_tail in Heq. by apply (inj pretty) in Heq.
Qed.

(** Across base names they do not: the first name for [a_1] is the
    second name for [a]. *)
Lemma jpg_name_shared : jpg_name "a" 1 = jpg_name "a_1" 0.
Proof. reflexivity. Qed.

(** *** The two tests that open [convert_files] *)

Lemma contains_getlist key (d : MultiDict) :
  contains key d = negb (length (getlist key d) =? 0)%nat.
Proof.
  unfold contains, getlist. induction d as [|[k f] d IH]; [done|].
  cbn. destruct (String.eqb k key); [done|]. by rewrite IH.
Qed.

Lemma no_files_selected (files : list FileStorage) :
  (length files =? 0)%nat || forallb (fun f => String.eqb (filename f) "") files =
  negb (has_named_file files).
Proof.
  unfold has_named_file. destruct files as [|f files]; [done|]. cbn [length Nat.eqb orb].
  induction (f :: files) as [|g l IH]; [done|]. cbn.
  rewrite IH. by destruct (String.eqb (filename g) "").
Qed.

(** The request is rejected before a session is made exactly when it
    carries no entry with a name. *)
Lemma convert_files_rejected uuid4 request_files temp :
  has_named_file (getlist "files" request_files) = false ->
  fst (convert_files TEMP_DIR uuid4 request_files temp) = temp /\
  request_error (snd (convert_files TEMP_DIR uuid4 request_files temp)) = true.
Proof.
  intros Hn. unfold convert_files. rewrite contains_getlist, no_files_selected, Hn.
  by destruct (length (getlist "files" request_files) =? 0)%nat.
Qed.

Lemma convert_files_accepted uuid4 request_files temp :
  has_named_file (getlist "files" request_files) = true ->
  temp !! uuid4 = None ->
  let st := run_loop (Py.join TEMP_DIR uuid4) (getlist "files" request_files) ∅ in
  convert_files TEMP_DIR uuid4 request_files temp =
    (<[uuid4 := Dir (session_files st)]> temp,
     if (length (converted_files st) =? 0)%nat
     then JsonError 400 "No files were converted" (Some (failed_files st))
     else JsonSuccess uuid4 (converted_files st) (failed_files st)
            (length (converted_files st)) (length (failed_files st))).
Proof.
  intros Hn Hfresh st. unfold convert_files.
  rewrite contains_getlist, no_files_selected, Hn.
  destruct (length (getlist "files" request_files) =? 0)%nat eqn:Hl.
  { destruct (getlist "files" request_files); done. }
  cbn [negb]. unfold makedirs. rewrite Hfresh. fold st.
  rewrite insert_insert_eq.
  by destruct (length (converted_files st) =? 0)%nat.
Qed.

Lemma has_named_file_false (files : list FileStorage) :
  has_named_file files = false <-> Forall (fun f => filename f = "") files.
Proof.
  unfold has_named_file. induction files as [|f files IH]; cbn.
  - split; [constructor|done].
  - rewrite Forall_cons, <- IH.
    destruct (String.eqb_spec (filename f) ""); cbn; intuition congruence.
Qed.

Lemma named_files_length (files : list FileStorage) :
  (length (named_files files) <= length files)%nat /\
  (Exists (fun f => filename f = "") files ->
   length (named_files files) < length files)%nat.
Proof.
  unfold named_files. induction files as [|f files [IHle IHlt]]; cbn.
  - split; [lia|]. by intros ?%Exists_nil.
  - destruct (String.eqb_spec (filename f) "") as [He|He]; cbn.
    + split; lia.
    + split; [lia|]. intros [?|Hex]%Exists_cons; [done|]. specialize (IHlt Hex). lia.
Qed.

(** What a success response is made of. *)
Lemma convert_files_success_inv uuid4 request_files temp temp' sid conv failed tc tf :
  convert_files TEMP_DIR uuid4 request_files temp =
    (temp', JsonSuccess sid conv failed tc tf) ->
  exists c,
    let st := run_loop (Py.join TEMP_DIR uuid4) (getlist "files" request_files) c in
    sid = uuid4 /\ conv = converted_files st /\ failed = failed_files st /\
    tc = length conv /\ tf = length failed /\ conv <> [].
Proof.
  unfold convert_files.
  destruct (negb (contains _ _)); [done|].
  destruct (_ || _); [done|].
  destruct (makedirs temp uuid4) as [[temp1 c]|]; [|done].
  destruct (length (converted_files _) =? 0)%nat eqn:Hl; [done|].
  intros [= <- <- <- <- <- <-]. exists c. cbn. repeat split; try done.
  intros Hc. by rewrite Hc in Hl.
Qed.

(** C5. The convert endpoint answers with a request-level error
    exactly when the list of uploaded files is empty or all its entries
    have an empty name, or when no file was converted; in every other
    case, a batch with some failures included, it answers with
    success: the session id, the converted and the failed list, and the
    two counts. The session id is fresh. *)
Theorem convert_files_error_exactly uuid4 request_files temp :
  temp !! uuid4 = None ->
  let files := getlist "files" request_files in
  let st := run_loop (Py.join TEMP_DIR uuid4) files ∅ in
  let r := snd (convert_files TEMP_DIR uuid4 request_files temp) in
  (request_error r = true <->
   (files = [] \/ Forall (fun f => filename f = "") files) \/ converted_files st = []) /\
  (request_error r = false ->
   r = JsonSuccess uuid4 (converted_files st) (failed_files st)
         (length (converted_files st)) (length (failed_files st))).
Proof.
  intros Hfresh files st r.
  destruct (has_named_file files) eqn:Hn.
  - pose proof (convert_files_accepted uuid4 request_files temp Hn Hfresh) as Hc.
    cbn zeta in Hc. fold files st in Hc. subst r. rewrite Hc. cbn [snd].
    assert (~ (files = [] \/ Forall (fun f => filename f = "") files)) as Hno.
    { intros [->|Hall%has_named_file_false]; [done|congruence]. }
    destruct (converted_files st) as [|e conv] eqn:Hconv; cbn.
    + split; [|done]. split; [by right|done].
    + split; [|done]. split; [done|]. intros [?|?]; done.
  - destruct (convert_files_rejected uuid4 request_files temp Hn) as [_ Hr].
    fold r in Hr. rewrite Hr. split; [|done].
    split; [|done]. intros _. left. right. by apply has_named_file_false.
Qed.

(** C10. In a success response no record carries the empty name, and
    the two counts add up to the number of entries with a name: an
    entry with an empty name is in neither list, so with such an entry
    in the request the counts add up to less than the number of
    uploaded entries. *)
Theorem empty_names_skipped uuid4 request_files temp temp' sid conv failed tc tf :
  convert_files TEMP_DIR uuid4 request_files temp =
    (temp', JsonSuccess sid conv failed tc tf) ->
  let files := getlist "files" request_files in
  Forall (fun e => original e <> "") conv /\
  Forall (fun e => name e <> "") failed /\
  (tc + tf = length (named_files files))%nat /\
  (Exists (fun f => filename f = "") files -> tc + tf < length files)%nat.
Proof.
  intros (c & -> & -> & -> & -> & -> & _)%convert_files_success_inv files.
  fold files. rewrite run_loop_run_from.
  destruct (run_from_named (Py.join TEMP_DIR uuid4) files (initial_state c))
    as [Hc Hf]; [constructor..|].
  pose proof (run_from_counts (Py.join TEMP_DIR uuid4) files (initial_state c)) as Hn.
  cbn in Hn. destruct (named_files_length files) as [_ Hlt].
  repeat split; [done..|]. intros He. rewrite Hn. auto.
Qed.

(** C1, as the code has it. For a request with at least one named
    entry the session directory is made before the loop, whether or not
    a file converts: it is there afterwards, and when no file was
    converted the answer is the error for the whole request and the
    directory is there all the same, empty. Only a request without a
    named entry, rejected at once, makes no directory. The session id
    is fresh. *)
Theorem session_directory_made_first uuid4 request_files temp :
  temp !! uuid4 = None ->
  let files := getlist "files" request_files in
  let st := run_loop (Py.join TEMP_DIR uuid4) files ∅ in
  let temp' := fst (convert_files TEMP_DIR uuid4 request_files temp) in
  let r := snd (convert_files TEMP_DIR uuid4 request_files temp) in
  (has_named_file files = false -> temp' = temp) /\
  (has_named_file files = true ->
   (exists c, temp' !! uuid4 = Some (Dir c)) /\
   (converted_files st = [] ->
    r = JsonError 400 "No files were converted" (Some (failed_files st)) /\
    temp' !! uuid4 = Some (Dir ∅))).
Proof.
  intros Hfresh files st temp' r. split.
  - intros Hn. by destruct (convert_files_rejected uuid4 request_files temp Hn).
  - intros Hn. subst temp' r.
    rewrite (convert_files_accepted uuid4 request_files temp Hn Hfresh).
    cbn [fst snd]. fold files st. rewrite lookup_insert_eq. split; [by eexists|].
    intros Hc. rewrite Hc. split; [done|].
    subst st. rewrite run_loop_run_from in *.
    destruct (run_from_session_files (Py.join TEMP_DIR uuid4) files (initial_state ∅))
      as (more & Hmore & Hs).
    rewrite Hc in Hmore. cbn in Hmore. subst more. by rewrite Hs.
Qed.

End WithLibrary.

(** *** The download endpoint *)

Section Download.
Variable ZipFile : list (string * list byte) -> list byte.

Lemma string_length_app (a b : string) :
  String.length (a +:+ b) = (String.length a + String.length b)%nat.
Proof.
  induction a as [|c a IH]; [done|].
  change (S (String.length (a +:+ b)) = S (String.length a + String.length b)).
  by rewrite IH.
Qed.

Lemma archive_name_ne (session_id : string) : session_id +:+ ".zip" <> session_id.
Proof.
  intros Heq. apply (f_equal String.length) in Heq.
  rewrite string_length_app in Heq. cbn in Heq. lia.
Qed.

Lemma listdir_nil (c : gmap string entry) : listdir c = [] <-> c = ∅.
Proof.
  unfold listdir. split.
  - intros Hl. apply map_to_list_empty_iff. by apply fmap_nil_inv in Hl.
  - intros ->. by rewrite map_to_list_empty.
Qed.

(** The members of the archive are the regular files of the
    directory, under their own names. *)
Lemma zip_members_spec (c : gmap string entry) n data :
  (n, data) ∈ zip_members c (listdir c) <-> c !! n = Some (Regular data).
Proof.
  unfold zip_members. rewrite list_elem_of_omap. split.
  - intros (m & _ & Hm). destruct (c !! m) as [[d|]|] eqn:Hc; simplify_eq. done.
  - intros Hc. exists n. rewrite Hc. split; [|done].
    unfold listdir. apply list_elem_of_fmap. exists (n, Regular data).
    split; [done|]. by apply elem_of_map_to_list.
Qed.

Lemma download_zip_not_found session_id temp :
  temp !! session_id = None ->
  download_zip ZipFile session_id temp =
    (temp, JsonError 404 "Session not found or expired" None).
Proof. intros Hs. unfold download_zip. by rewrite Hs. Qed.

Lemma download_zip_empty session_id temp :
  temp !! session_id = Some (Dir ∅) ->
  download_zip ZipFile session_id temp = (temp, JsonError 404 "No files to download" None).
Proof. intros Hs. unfold download_zip. rewrite Hs. by rewrite (proj2 (listdir_nil ∅)). Qed.

Lemma download_zip_archive session_id temp c :
  temp !! session_id = Some (Dir c) ->
  c <> ∅ ->
  (forall c', temp !! (session_id +:+ ".zip") <> Some (Dir c')) ->
  download_zip ZipFile session_id temp =
    (<[session_id +:+ ".zip" := File (ZipFile (zip_members c (listdir c)))]> temp,
     SendFile (ZipFile (zip_members c (listdir c))) "converted_images.zip").
Proof.
  intros Hs Hc Hz. unfold download_zip. rewrite Hs.
  destruct (length (listdir c) =? 0)%nat eqn:Hl.
  { apply Nat.eqb_eq, length_zero_iff_nil, listdir_nil in Hl. done. }
  destruct (temp !! (session_id +:+ ".zip")) as [[d|c']|] eqn:Hzip; try done.
  by destruct (Hz c').
Qed.

(** An id that names a file of the temporary directory gets past the
    test for existence, and the listing raises. *)
Lemma download_zip_of_file session_id temp data :
  temp !! session_id = Some (File data) ->
  download_zip ZipFile session_id temp = (temp, Unhandled "NotADirectoryError").
Proof. intros Hs. unfold download_zip. by rewrite Hs. Qed.

(** No call deletes or changes the session directory. *)
Lemma download_zip_keeps_session session_id temp :
  fst (download_zip ZipFile session_id temp) !! session_id = temp !! session_id.
Proof.
  unfold download_zip.
  destruct (temp !! session_id) as [[d|c]|] eqn:Hs; cbn; try done.
  destruct (length (listdir c) =? 0)%nat; cbn; [done|].
  destruct (temp !! (session_id +:+ ".zip")) as [[d|c']|]; cbn; try done;
    by rewrite lookup_insert_ne by apply archive_name_ne.
Qed.

End Download.

(** *** Closed instances *)

Lemma convert_files_error_exactly_witness :
  (∅ : gmap string node) !! "u" = None /\
  snd (convert_files (lib := Sample.library) Sample.TEMP_DIR "u"
         [Sample.upload "a.heic" Sample.photo; Sample.upload "b.txt" Sample.photo] ∅) =
  JsonSuccess "u"
    [{| original := "a.heic"; converted := "a.jpg"; size := 3 |}]
    [{| name := "b.txt"; error := "Not a HEIC/HEIF file" |}] 1 1.
Proof.
  assert ((∅ : gmap string node) !! "u" = None) as Hfresh by (vm_compute; reflexivity).
  split; [exact Hfresh|].
  apply (convert_files_error_exactly (lib := Sample.library) Sample.TEMP_DIR "u"
           [Sample.upload "a.heic" Sample.photo; Sample.upload "b.txt" Sample.photo] ∅ Hfresh).
  vm_compute. reflexivity.
Defined.

Lemma empty_names_skipped_witness :
  convert_files (lib := Sample.library) Sample.TEMP_DIR "u"
    [Sample.upload "a.heic" Sample.photo; Sample.upload "" []] ∅ =
  (<["u" := Dir {["a.jpg" := Regular Sample.photo]}]> ∅,
   JsonSuccess "u" [{| original := "a.heic"; converted := "a.jpg"; size := 3 |}] [] 1 0) /\
  (1 + 0 < 2)%nat.
Proof.
  assert (convert_files (lib := Sample.library) Sample.TEMP_DIR "u"
            [Sample.upload "a.heic" Sample.photo; Sample.upload "" []] ∅ =
          (<["u" := Dir {["a.jpg" := Regular Sample.photo]}]> ∅,
           JsonSuccess "u" [{| original := "a.heic"; converted := "a.jpg"; size := 3 |}]
             [] 1 0)) as Hrun.
  { vm_compute. reflexivity. }
  split; [exact Hrun|].
  apply (empty_names_skipped (lib := Sample.library) _ _ _ _ _ _ _ _ _ _ Hrun).
  apply Exists_cons_tl, Exists_cons_hd. reflexivity.
Defined.

(** C1, as the spec has it, fails: a request whose only file has the
    wrong extension converts nothing, and its session directory is on
    disk all the same. *)
Lemma session_directory_without_success :
  convert_files (lib := Sample.library) Sample.TEMP_DIR "u"
    [Sample.upload "notes.txt" Sample.photo] ∅ =
  (<["u" := Dir ∅]> ∅,
   JsonError 400 "No files were converted"
     (Some [{| name := "notes.txt"; error := "Not a HEIC/HEIF file" |}])).
Proof. vm_compute. reflexivity. Qed.

Lemma session_directory_made_first_witness :
  (∅ : gmap string node) !! "u" = None /\
  snd (convert_files (lib := Sample.library) Sample.TEMP_DIR "u"
         [Sample.upload "notes.txt" Sample.photo] ∅) =
    JsonError 400 "No files were converted"
      (Some [{| name := "notes.txt"; error := "Not a HEIC/HEIF file" |}]) /\
  fst (convert_files (lib := Sample.library) Sample.TEMP_DIR "u"
         [Sample.upload "notes.txt" Sample.photo] ∅) !! "u" = Some (Dir ∅).
Proof.
  assert ((∅ : gmap string node) !! "u" = None) as Hfresh by (vm_compute; reflexivity).
  split; [exact Hfresh|].
  destruct (session_directory_made_first (lib := Sample.library) Sample.TEMP_DIR "u"
              [Sample.upload "notes.txt" Sample.photo] ∅ Hfresh) as [_ Hnamed].
  destruct Hnamed as [_ Hnone]; [vm_compute; reflexivity|].
  destruct Hnone as [Hr Hd]; [vm_compute; reflexivity|].
  split; [|exact Hd]. rewrite Hr. vm_compute. reflexivity.
Defined.

(** C3, at the input where the code leaves it: [a.heic] twice, then
    [a_1.heic]. The second and the third file are both named
    [a_1.jpg]; three conversions are reported and two files are in the
    session directory, the third written over the second. *)
Theorem suffixed_name_taken_twice :
  convert_files (lib := Sample.library) Sample.TEMP_DIR "u"
    [Sample.upload "a.heic" [x01]; Sample.upload "a.heic" [x02];
     Sample.upload "a_1.heic" [x03]] ∅ =
  (<["u" := Dir (<["a.jpg" := Regular [x01]]> {["a_1.jpg" := Regular [x03]]})]> ∅,
   JsonSuccess "u"
     [{| original := "a.heic"; converted := "a.jpg"; size := 1 |};
      {| original := "a.heic"; converted := "a_1.jpg"; size := 1 |};
      {| original := "a_1.heic"; converted := "a_1.jpg"; size := 1 |}]
     [] 3 0).
Proof. vm_compute. reflexivity. Qed.

(** C8, at the input where the code leaves it. A download of session
    [s] leaves the archive [s.zip] in the temporary directory. Asked
    for the id [s.zip], for which there is no directory, the endpoint
    finds the path, lists it, and the exception of the listing is the
    answer, not the error of a missing session. *)
Theorem download_of_archive_name :
  let temp : gmap string node := {["s" := Dir {["a.jpg" := Regular Sample.photo]}]} in
  let archive := Sample.ZipFile [("a.jpg", Sample.photo)] in
  download_zip Sample.ZipFile "s" temp =
    (<["s.zip" := File archive]> temp, SendFile archive "converted_images.zip") /\
  download_zip Sample.ZipFile "s.zip" (<["s.zip" := File archive]> temp) =
    (<["s.zip" := File archive]> temp, Unhandled "NotADirectoryError").
Proof. split; vm_compute; reflexivity. Qed.

End WebProps.


(** * Properties of the command-line tool *)

Module CliProps.
Import Cli.

(** *** The file system *)

Lemma fs_lookup_write fs p n q :
  fs_lookup (fs_write fs p n) q = if decide (p = q) then Some n else fs_lookup fs q.
Proof.
  induction fs as [|[r m] fs IH]; cbn.
  - by destruct (decide (p = q)).
  - destruct (decide (r = p)) as [->|Hrp]; cbn.
    + by destruct (decide (p = q)).
    + rewrite IH. destruct (decide (r = q)) as [->|]; [|done].
      by destruct (decide (p = q)); [congruence|].
Qed.

Lemma stat_None fs p : stat fs p = None -> fs_lookup fs p = None.
Proof. unfold stat. by destruct p as [|? [|]]; repeat case_match. Qed.

Lemma exists_false fs p : exists_ fs p = false -> fs_lookup fs p = None.
Proof.
  unfold exists_. destruct (stat fs p) eqn:Hs; [done|]. intros _. by apply stat_None.
Qed.

#[local] Instance preserved_refl : Reflexive preserved.
Proof. by intros fs p n. Qed.

#[local] Instance preserved_trans : Transitive preserved.
Proof. intros fs1 fs2 fs3 H12 H23 p n Hp. by apply H23, H12. Qed.

(** A write to a path that is free keeps the rest. *)
Lemma preserved_write fs p n : fs_lookup fs p = None -> preserved fs (fs_write fs p n).
Proof.
  intros Hp q m Hq. rewrite fs_lookup_write.
  destruct (decide (p = q)) as [->|]; [congruence|done].
Qed.

Section System.
Context `{os : OS}.




(** Making directories changes and removes nothing, also when it
    raises. *)
Lemma mkdir_prefixes_preserved d n fs : preserved fs (fst (mkdir_prefixes d n fs)).
Proof.
  induction n as [|n IH]; cbn; [done|].
  destruct (mkdir_prefixes d n fs) as [fs1 [[]|e]]; cbn [fst] in *; [|done].
  destruct (stat_error _); [done|].
  destruct (stat fs1 (take (S n) d)) as [[|]|] eqn:Hs; [done..|].
  destruct (mkdir_error _); [done|]. cbn [fst].
  trans fs1; [done|]. by apply preserved_write, stat_None.
Qed.



(** Making a directory that is there, under directories, does
    nothing. *)
Lemma mkdir_prefixes_noop d n fs :
  (forall k, (0 < k <= n)%nat ->
     stat_error (take k d) = None /\ stat fs (take k d) = Some FDir) ->
  mkdir_prefixes d n fs = (fs, Ok tt).
Proof.
  induction n as [|n IH]; intros Hd; cbn; [done|].
  rewrite IH by (intros; apply Hd; lia).
  destruct (Hd (S n)) as [-> ->]; [lia|done].
Qed.

End System.

Lemma stat_long fs (p : Path) : (2 <= length p)%nat -> stat fs p = fs_lookup fs p.
Proof.
  intros Hp. unfold stat. repeat case_match; try done; simplify_eq/=; lia.
Qed.

(** *** The scan of a folder *)

(** What the loop keeps comes from the list, in its order, and was not
    seen before. *)
Lemma remove_duplicates_elem seen l f :
  f ∈ remove_duplicates seen l -> f ∈ l /\ seen_key f ∉ seen.
Proof.
  revert seen. induction l as [|g l IH]; intros seen; cbn; [by intros ?%elem_of_nil|].
  destruct (decide (Py.lower (str g) ∈ seen)) as [Hin|Hout].
  - intros [? ?]%IH. split; [by right|done].
  - intros [->|[? Hs]%IH]%elem_of_cons; [split; [by left|done]|].
    split; [by right|]. intros Hin. apply Hs, elem_of_union. by right.
Qed.

(** No two of the paths kept differ in letter case only. *)
Lemma remove_duplicates_NoDup seen l :
  NoDup (seen_key <$> remove_duplicates seen l).
Proof.
  revert seen. induction l as [|g l IH]; intros seen; cbn; [constructor|].
  destruct (decide (Py.lower (str g) ∈ seen)) as [Hin|Hout]; [apply IH|].
  rewrite fmap_cons. constructor; [|apply IH].
  intros (f & Hk & Hf)%list_elem_of_fmap.
  apply remove_duplicates_elem in Hf as [_ Hs]. apply Hs, elem_of_union. left.
  by apply elem_of_singleton.
Qed.

(** Every path of the list is kept, or a path equal to it up to letter
    case is. *)
Lemma remove_duplicates_covers seen l f :
  f ∈ l -> seen_key f ∉ seen ->
  exists g, g ∈ remove_duplicates seen l /\ seen_key g = seen_key f.
Proof.
  revert seen. induction l as [|h l IH]; intros seen; [by intros ?%elem_of_nil|].
  intros Hf Hs. cbn.
  destruct (decide (Py.lower (str h) ∈ seen)) as [Hin|Hout].
  - apply elem_of_cons in Hf as [->|Hf]; [done|]. by apply IH.
  - destruct (decide (seen_key h = seen_key f)) as [Heq|Hne].
    + exists h. split; [by left|done].
    + apply elem_of_cons in Hf as [->|Hf]; [done|].
      destruct (IH ({[Py.lower (str h)]} ∪ seen) Hf) as (g & Hg & Hk).
      * intros [Heq%elem_of_singleton|Hin]%elem_of_union; [by apply Hne|done].
      * exists g. split; [by right|done].
Qed.

(** The scan keeps entries under the folder whose name ends in one of
    the four spellings, and no other. *)
Lemma find_heic_files_elem fs0 folder_path (recursive : bool) f :
  f ∈ find_heic_files fs0 folder_path recursive ->
  f ∈ fs0.*1 /\
  (if recursive then is_descendant folder_path f else is_child folder_path f) = true /\
  (Py.endswith (name f) ".heic" || Py.endswith (name f) ".HEIC" ||
   Py.endswith (name f) ".heif" || Py.endswith (name f) ".HEIF") = true.
Proof.
  unfold find_heic_files. intros [Hf _]%remove_duplicates_elem.
  destruct recursive; unfold rglob, glob, fnmatch_star in Hf;
    rewrite !elem_of_app, !list_elem_of_In, !filter_In, <- !list_elem_of_In in Hf;
    destruct Hf as [[[? [? ?]%andb_true_iff]|[? [? ?]%andb_true_iff]]|
                    [[? [? ?]%andb_true_iff]|[? [? ?]%andb_true_iff]]];
    repeat split; try done; repeat (apply orb_true_iff; (by left) || (by right) || left).
Qed.

(** Every entry under the folder with one of the four spellings is
    kept, or an entry equal to it up to letter case is. *)
Lemma find_heic_files_covers fs0 folder_path (recursive : bool) f :
  f ∈ fs0.*1 ->
  (if recursive then is_descendant folder_path f else is_child folder_path f) = true ->
  (Py.endswith (name f) ".heic" || Py.endswith (name f) ".HEIC" ||
   Py.endswith (name f) ".heif" || Py.endswith (name f) ".HEIF") = true ->
  exists g, g ∈ find_heic_files fs0 folder_path recursive /\ seen_key g = seen_key f.
Proof.
  intros Hf Hunder Hname. unfold find_heic_files.
  apply remove_duplicates_covers; [|apply not_elem_of_empty].
  apply list_elem_of_In in Hf.
  destruct recursive; unfold rglob, glob, fnmatch_star;
    rewrite !elem_of_app, !list_elem_of_In, !filter_In, Hunder; cbn [andb];
    repeat (apply orb_true_iff in Hname as [Hname|Hname]); auto.
Qed.

(** *** The order of the conversions *)

Lemma string_compare_refl s : String.compare s s = Eq.
Proof.
  induction s as [|c s IH]; cbn; [done|].
  unfold Ascii.compare. by rewrite N.compare_refl.
Qed.

Lemma string_compare_lt_trans a b c :
  String.compare a b = Lt -> String.compare b c = Lt -> String.compare a c = Lt.
Proof.
  intros Hab Hbc.
  assert (String.le a c) as Hac.
  { trans b; unfold String.le, String.leb; [by rewrite Hab|by rewrite Hbc]. }
  unfold String.le, String.leb in Hac.
  destruct (String.compare a c) eqn:Hc; [|done|done].
  apply String.compare_eq_iff in Hc as ->.
  rewrite String.compare_antisym, Hbc in Hab. done.
Qed.

Lemma Path_compare_eq p q : Path_compare p q = Eq -> p = q.
Proof.
  revert q. induction p as [|a p IH]; intros [|b q]; cbn; try done.
  destruct (String.compare a b) eqn:Hab; try done.
  apply String.compare_eq_iff in Hab as ->. by intros ->%IH.
Qed.

Lemma Path_compare_antisym p q : Path_compare p q = CompOpp (Path_compare q p).
Proof.
  revert q. induction p as [|a p IH]; intros [|b q]; cbn; try done.
  rewrite String.compare_antisym. destruct (String.compare b a); cbn; auto.
Qed.

Lemma Path_compare_lt_trans p q r :
  Path_compare p q = Lt -> Path_compare q r = Lt -> Path_compare p r = Lt.
Proof.
  revert q r. induction p as [|a p IH]; intros [|b q] [|c r]; cbn; try done.
  destruct (String.compare a b) eqn:Hab; try done.
  - apply String.compare_eq_iff in Hab as ->.
    destruct (String.compare b c); try done. apply IH.
  - intros _. destruct (String.compare b c) eqn:Hbc; try done.
    + apply String.compare_eq_iff in Hbc as ->. by rewrite Hab.
    + by rewrite (string_compare_lt_trans a b c).
Qed.

#[local] Instance Path_le_total : Total Path_le.
Proof.
  intros p q. unfold Path_le. rewrite (Path_compare_antisym q p).
  destruct (Path_compare p q); cbn; auto.
Qed.

#[local] Instance Path_le_trans : Transitive Path_le.
Proof.
  intros p q r. unfold Path_le.
  destruct (Path_compare p q) eqn:Hpq; [| |done].
  - by apply Path_compare_eq in Hpq as ->.
  - intros _. destruct (Path_compare q r) eqn:Hqr; [| |done].
    + apply Path_compare_eq in Hqr as ->. by rewrite Hpq.
    + by rewrite (Path_compare_lt_trans p q r).
Qed.

#[local] Instance Path_le_antisym : AntiSymm (=) Path_le.
Proof.
  intros p q. unfold Path_le. rewrite (Path_compare_antisym q p).
  destruct (Path_compare p q) eqn:Hpq; cbn; [|done..].
  intros _ _. by apply Path_compare_eq.
Qed.

(** [sorted] puts the same paths in ascending order, and the order in
    which the scan listed them does not show in the result. *)
Lemma sorted_spec l : Sorted Path_le (sorted l) /\ sorted l ≡ₚ l.
Proof. split; [apply Sorted_merge_sort, _|apply merge_sort_Permutation]. Qed.

Lemma sorted_order_independent l1 l2 : l1 ≡ₚ l2 -> sorted l1 = sorted l2.
Proof.
  intros Hp. apply (Sorted_unique Path_le); try apply sorted_spec.
  by rewrite !(proj2 (sorted_spec _)).
Qed.

Section WithLibrary.
Context `{lib : Imaging} `{os : OS}.

Ltac step_monad :=
  cbv [bind ret get lift modify print set_fs try_except save open_path
       try_block except_block];
  cbn [fs stdout fst snd].

(** *** The path tests *)

Lemma Path_exists_Ok p st b :
  Path_exists p st = (st, Ok b) <-> stat_error p = None /\ exists_ (fs st) p = b.
Proof.
  unfold Path_exists. destruct (stat_error p); split; try done.
  - by intros [? ?].
  - by intros [= <-].
  - by intros [_ <-].
Qed.


(** A test changes nothing. *)
Lemma Path_exists_state p st : fst (Path_exists p st) = st.
Proof. unfold Path_exists. by destruct (stat_error p). Qed.

Lemma Path_is_file_state p st : fst (Path_is_file p st) = st.
Proof. unfold Path_is_file. by destruct (stat_error p). Qed.

Lemma Path_is_dir_state p st : fst (Path_is_dir p st) = st.
Proof. unfold Path_is_dir. by destruct (stat_error p). Qed.

(** *** The output directory *)

Lemma mkdir_preserved d st : preserved (fs st) (fs (fst (mkdir d st))).
Proof.
  unfold mkdir. pose proof (mkdir_prefixes_preserved d (length d) (fs st)) as Hp.
  by destruct (mkdir_prefixes _ _ _).
Qed.

Lemma mkdir_stdout d st : stdout (fst (mkdir d st)) = stdout st.
Proof. unfold mkdir. by destruct (mkdir_prefixes _ _ _). Qed.

Lemma determine_output_preserved heic_path output_dir st st1 r :
  determine_output heic_path output_dir st = (st1, r) -> preserved (fs st) (fs st1).
Proof.
  unfold determine_output. destruct output_dir as [d|]; [|by intros [= <- _]].
  destruct (truthy (Some d)); [|by intros [= <- _]].
  pose proof (mkdir_preserved (Path_of_arg d) st) as Hp. step_monad.
  by destruct (mkdir _ st) as [st2 [[]|e]]; intros [= <- _].
Qed.

Lemma determine_output_target heic_path output_dir st st1 d :
  determine_output heic_path output_dir st = (st1, Ok d) ->
  div d (stem heic_path +:+ ".jpg") = jpg_target heic_path output_dir /\
  stdout st1 = stdout st.
Proof.
  unfold determine_output, jpg_target. destruct output_dir as [a|]; [|by intros [= <- <-]].
  destruct (truthy (Some a)); [|by intros [= <- <-]].
  pose proof (mkdir_stdout (Path_of_arg a) st) as Hs. step_monad.
  by destruct (mkdir _ st) as [st2 [[]|e]]; intros [= <- <-].
Qed.


(** *** One file *)





Lemma try_block_preserved heic_path jpg_path jpg_filename quality st st' r :
  exists_ (fs st) jpg_path = false ->
  try_except (try_block heic_path jpg_path jpg_filename quality)
             (except_block heic_path) st = (st', r) ->
  preserved (fs st) (fs st').
Proof.
  intros Hfree%exists_false. step_monad.
  destruct (open_result (fs st) heic_path) as [img|]; [|by intros [= <- _]].
  destruct (normalize_mode img) as [img'|]; [|by intros [= <- _]].
  destruct (Image_save _ _ _) as [data|]; intros [= <- _]; [|done].
  by apply preserved_write.
Qed.


(** The course of a call of [convert_heic_to_jpg]: the source is
    not there; or the system stops at a test or refuses the directory;
    or the target is there; or the [try] block runs. *)
Lemma convert_heic_to_jpg_cases heic_path output_dir quality st :
  let call := convert_heic_to_jpg heic_path output_dir quality st in
  let target := jpg_target heic_path output_dir in
  (exists e, stat_error heic_path = Some e /\ call = (st, Raise e)) \/
  (stat_error heic_path = None /\ exists_ (fs st) heic_path = false /\
   call = (fst (print ("  Error: File not found - " +:+ str heic_path) st), Ok None)) \/
  (stat_error heic_path = None /\ exists_ (fs st) heic_path = true /\
   ((exists st1 e, determine_output heic_path output_dir st = (st1, Raise e) /\
                   call = (st1, Raise e)) \/
    (exists st1 d, determine_output heic_path output_dir st = (st1, Ok d) /\
       ((exists e, stat_error target = Some e /\ call = (st1, Raise e)) \/
        (stat_error target = None /\ exists_ (fs st1) target = true /\
         call = (fst (print (skipped_line heic_path) st1), Ok (Some target))) \/
        (stat_error target = None /\ exists_ (fs st1) target = false /\
         call = try_except (try_block heic_path target (stem heic_path +:+ ".jpg") quality)
                           (except_block heic_path) st1))))).
Proof.
  intros call target.
  assert (call = convert_heic_to_jpg heic_path output_dir quality st) as Hcall by done.
  clearbody call. revert Hcall. subst target.
  unfold convert_heic_to_jpg. unfold bind at 1. unfold Path_exists at 1.
  destruct (stat_error heic_path) as [e|] eqn:Hse; intros Hcall; [left; by exists e|].
  right. revert Hcall.
  destruct (exists_ (fs st) heic_path) eqn:Hex; cbn [negb]; intros Hcall;
    [right|left; by repeat split].
  split; [done|]. split; [done|]. revert Hcall. unfold bind at 1.
  destruct (determine_output heic_path output_dir st) as [st1 [d|e]] eqn:Hd; intros Hcall;
    [right|left; by exists st1, e].
  exists st1, d. split; [done|]. revert Hcall.
  destruct (determine_output_target _ _ _ _ _ Hd) as [-> _].
  unfold bind at 1. unfold Path_exists at 1.
  destruct (stat_error (jpg_target heic_path output_dir)) as [e|] eqn:Hte; intros Hcall;
    [left; by exists e|].
  right. revert Hcall.
  destruct (exists_ (fs st1) _) eqn:Hex1; intros Hcall; [left|right]; by repeat split.
Qed.

(** No call of [convert_heic_to_jpg] changes or removes what is
    there. *)
Lemma convert_heic_to_jpg_preserved heic_path output_dir quality st st' r :
  convert_heic_to_jpg heic_path output_dir quality st = (st', r) ->
  preserved (fs st) (fs st').
Proof.
  destruct (convert_heic_to_jpg_cases heic_path output_dir quality st)
    as [(e & _ & ->)|[(_ & _ & ->)|(_ & _ & [(st1 & e & Hd & ->)|(st1 & d & Hd & Hc)])]].
  - by intros [= <- _].
  - by intros [= <- _].
  - intros [= <- _]. by eapply determine_output_preserved.
  - pose proof (determine_output_preserved _ _ _ _ _ Hd) as H1.
    destruct Hc as [(e & _ & ->)|[(_ & _ & ->)|(_ & Hfree & ->)]].
    + by intros [= <- _].
    + by intros [= <- _].
    + intros Ht%try_block_preserved; [|done]. by trans (fs st1).
Qed.

(** *** The loops *)







(** *** The target path *)

Lemma stat_jpg_target fs0 heic_path output_dir :
  stat fs0 (jpg_target heic_path output_dir) = fs_lookup fs0 (jpg_target heic_path output_dir).
Proof.
  unfold jpg_target, div.
  match goal with |- context [?d ++ [_]] => generalize d end.
  intros [|c d].
  - cbn [app]. unfold stat.
    destruct (decide (stem heic_path +:+ ".jpg" = "/")) as [Heq|Hne].
    + apply (f_equal String.length) in Heq.
      rewrite WebProps.string_length_app in Heq.
      cbn in Heq. lia.
    + repeat case_match; try done; simplify_eq.
  - apply stat_long. cbn. rewrite length_app. cbn. lia.
Qed.

Lemma stat_file fs0 p content :
  stat fs0 p = Some (FFile content) -> fs_lookup fs0 p = Some (FFile content).
Proof. unfold stat. by repeat case_match. Qed.

(** *** Runs in which every target is there *)





(** *** The claims on the converter *)





End WithLibrary.

(** *** Closed instances *)



(** Neither is a conversion attempted for every file: with [-o]
    naming a file, [mkdir] raises and the run ends before the library
    is called; so does the test for a target whose name is too long for
    the system. *)
Lemma file_argument_output_in_the_way :
  let st := {| fs := [(["a.png"], FFile Sample.photo); (["blocker"], FFile [xff])];
               stdout := [] |} in
  main (lib := Sample.library) (os := Sample.os)
    (Sample.run_args ["a.png"] (Some "blocker")) st = (st, Raise "FileExistsError").
Proof. vm_compute. reflexivity. Qed.

Lemma file_argument_target_refused :
  let st := {| fs := [([Sample.long_name +:+ ".x"], FFile Sample.photo)]; stdout := [] |} in
  String.length (Sample.long_name +:+ ".x") = 255%nat /\
  String.length (Sample.long_name +:+ ".jpg") = 257%nat /\
  main (lib := Sample.library) (os := Sample.os)
    (Sample.run_args [Sample.long_name +:+ ".x"] None) st = (st, Raise "OSError").
Proof. repeat split; vm_compute; reflexivity. Qed.



(** With [empty.jpg] there the empty file is not looked at: it is
    reported as skipped and counted as converted. *)
Lemma cli_empty_file_skipped :
  let st := {| fs := [(["empty.heic"], FFile []); (["empty.jpg"], FFile [xff])];
               stdout := [] |} in
  main (lib := Sample.library) (os := Sample.os) (Sample.run_args ["empty.heic"] None) st =
    ({| fs := fs st;
        stdout := ["  Skipped (exists): empty.jpg"; nl +:+ rule;
                   "TOTAL: 1 converted, 0 failed"; rule] |},
     Ok (Some (1, 0)%nat)).
Proof. vm_compute. reflexivity. Qed.


(** C2, at the input where the code leaves it: with [-o out], the
    file named on the command line goes to [out], and the file found
    by scanning the folder [photos] goes to [photos/jpg files]. *)
Theorem output_directory_not_used_for_folder :
  let st := {| fs := [(["photos"], FDir); (["photos"; "x.heic"], FFile Sample.photo)];
               stdout := [] |} in
  fs (fst (main (lib := Sample.library) (os := Sample.os)
             (Sample.run_args ["photos/x.heic"] (Some "out")) st)) =
    [(["photos"], FDir); (["photos"; "x.heic"], FFile Sample.photo);
     (["out"], FDir); (["out"; "x.jpg"], FFile Sample.photo)] /\
  main (lib := Sample.library) (os := Sample.os) (Sample.run_args ["photos"] (Some "out")) st =
    ({| fs := [(["photos"], FDir); (["photos"; "x.heic"], FFile Sample.photo);
               (["photos"; "jpg files"], FDir);
               (["photos"; "jpg files"; "x.jpg"], FFile Sample.photo)];
        stdout := [nl +:+ "Processing: photos"; "Found 1 HEIC file(s)";
                   "  Converted: x.heic -> x.jpg";
                   "Completed: 1 converted, 0 failed";
                   nl +:+ rule; "TOTAL: 1 converted, 0 failed"; rule] |},
     Ok (Some (1, 0)%nat)).
Proof. split; vm_compute; reflexivity. Qed.

(** Two files whose paths differ in letter case only: the scan keeps
    the first and the other is not converted. *)
Lemma case_variants_contribute_one :
  find_heic_files [(["photos"], FDir); (["photos"; "x.HEIC"], FFile [x01]);
                   (["photos"; "x.heic"], FFile [x02])] ["photos"] false =
  [["photos"; "x.heic"]].
Proof. vm_compute. reflexivity. Qed.

(** C7, at the input where the code leaves it: the name [x.Heic] has
    the extension [.heic] when letter case is set aside, as the web
    application tests it, and the scan of its folder does not find
    it. *)
Theorem mixed_case_extension_not_found :
  let st := {| fs := [(["photos"], FDir); (["photos"; "x.Heic"], FFile Sample.photo)];
               stdout := [] |} in
  Web.is_heic "x.Heic" = true /\
  find_heic_files (fs st) ["photos"] false = [] /\
  find_heic_files (fs st) ["photos"] true = [] /\
  convert_folder (lib := Sample.library) (os := Sample.os) ["photos"] false true 95 st =
    ({| fs := fs st; stdout := ["No HEIC files found in: photos"] |}, Ok (0, 0)%nat).
Proof. repeat split; vm_compute; reflexivity. Qed.

End CliProps.

(** * More on the web application *)

Module WebMore.
Import Web WebProps.

Section WithLibrary.
Context `{lib : Imaging}.
Variable TEMP_DIR : string.
Variable ZipFile : list (string * list byte) -> list byte.

(** *** The two lists of the response *)

Lemma named_files_cons file files :
  named_files (file :: files) =
  if String.eqb (filename file) "" then named_files files else file :: named_files files.
Proof. unfold named_files. cbn. by destruct (String.eqb (filename file) ""). Qed.

Lemma run_from_order sp files st :
  exists cs fs,
    converted_files (run_from sp files st) = converted_files st ++ cs /\
    failed_files (run_from sp files st) = failed_files st ++ fs /\
    sublist (original <$> cs) (filename <$> named_files files) /\
    sublist (name <$> fs) (filename <$> named_files files) /\
    Forall (fun e => is_heic (original e) = true) cs.
Proof.
  apply (run_from_ind (fun files st st' =>
    exists cs fs,
      converted_files st' = converted_files st ++ cs /\
      failed_files st' = failed_files st ++ fs /\
      sublist (original <$> cs) (filename <$> named_files files) /\
      sublist (name <$> fs) (filename <$> named_files files) /\
      Forall (fun e => is_heic (original e) = true) cs)); clear.
  - intros st. exists [], []. rewrite !app_nil_r. repeat split; try done.
    all: apply sublist_nil_l.
  - intros file files st st1 st2 Hit (cs & fs & Hc & Hf & Hsc & Hsf & Hh).
    rewrite named_files_cons.
    destruct Hit as [Hn ->|e Hn Hc1 Hf1 _|jpg data Hn Hheic _ Hc1 Hf1 _].
    + rewrite Hn. cbn. by exists cs, fs.
    + apply String.eqb_neq in Hn. rewrite Hn.
      exists cs, ({| name := filename file; error := e |} :: fs).
      rewrite Hc, Hf, Hc1, Hf1, <- app_assoc. cbn. repeat split; try done.
      * by apply sublist_cons.
      * by apply sublist_skip.
    + apply String.eqb_neq in Hn. rewrite Hn.
      eexists (_ :: cs), fs.
      rewrite Hc, Hf, Hc1, Hf1, <- app_assoc. cbn. repeat split; try done.
      * by apply sublist_skip.
      * by apply sublist_cons.
      * by constructor.
Qed.

(** X1. The converted list and the failed list of a request name the
    uploaded entries in the order of the upload, and only an entry with
    a HEIC or HEIF name is ever in the converted list. *)
Theorem results_in_upload_order sp files c :
  sublist (original <$> converted_files (run_loop sp files c))
          (filename <$> named_files files) /\
  sublist (name <$> failed_files (run_loop sp files c))
          (filename <$> named_files files) /\
  Forall (fun e => is_heic (original e) = true) (converted_files (run_loop sp files c)).
Proof.
  rewrite run_loop_run_from.
  destruct (run_from_order sp files (initial_state c)) as (cs & fs & -> & -> & ? & ? & ?).
  done.
Qed.

(** The failed list only grows. *)
Lemma run_from_failed_grows sp files st e :
  e ∈ failed_files st -> e ∈ failed_files (run_from sp files st).
Proof.
  destruct (run_from_order sp files st) as (cs & fs & _ & -> & _). set_solver.
Qed.

Lemma loop_body_wrong_extension sp file st :
  filename file <> "" -> is_heic (filename file) = false ->
  failed_files (fst (loop_body sp file st)) =
  failed_files st ++ [{| name := filename file; error := "Not a HEIC/HEIF file" |}].
Proof.
  intros Hn%String.eqb_neq Hh. unfold loop_body. by rewrite Hn, Hh.
Qed.

Lemma loop_body_empty_content sp file st :
  filename file <> "" -> is_heic (filename file) = true -> stream file = [] ->
  failed_files (fst (loop_body sp file st)) =
  failed_files st ++ [{| name := filename file; error := "Empty file" |}].
Proof.
  intros Hn%String.eqb_neq Hh Hs. unfold loop_body. rewrite Hn, Hh. cbn [negb].
  unfold try_except, try_body. by rewrite Hs.
Qed.

Lemma run_from_reports sp files st file e :
  file ∈ files ->
  (forall st0, failed_files (fst (loop_body sp file st0)) =
               failed_files st0 ++ [{| name := filename file; error := e |}]) ->
  {| name := filename file; error := e |} ∈ failed_files (run_from sp files st).
Proof.
  intros Hin Hstep. revert st. induction files as [|g files IH]; intros st.
  { by apply elem_of_nil in Hin. }
  rewrite run_from_cons. apply elem_of_cons in Hin as [<-|Hin]; [|by apply IH].
  apply run_from_failed_grows. rewrite Hstep. set_solver.
Qed.

(** X2. Every uploaded entry with a name that is not a HEIC or HEIF
    name is in the failed list under the reason [Not a HEIC/HEIF file],
    and every entry with such a name and no content under the reason
    [Empty file], whatever the imaging library does with the other
    entries. *)
Theorem rejected_entries_reported sp files c file :
  file ∈ files ->
  filename file <> "" ->
  (is_heic (filename file) = false ->
   {| name := filename file; error := "Not a HEIC/HEIF file" |}
     ∈ failed_files (run_loop sp files c)) /\
  (is_heic (filename file) = true -> stream file = [] ->
   {| name := filename file; error := "Empty file" |}
     ∈ failed_files (run_loop sp files c)).
Proof.
  intros Hin Hn. rewrite run_loop_run_from. split.
  - intros Hh. apply run_from_reports; [done|].
    intros st0. by apply loop_body_wrong_extension.
  - intros Hh Hs. apply run_from_reports; [done|].
    intros st0. by apply loop_body_empty_content.
Qed.

(** *** The registry over the loop *)

Lemma next_name_eq b st :
  next_name b st =
  ({| converted_files := converted_files st;
      failed_files := failed_files st;
      file_counter := <[b := next_number (file_counter st) b]> (file_counter st);
      session_files := session_files st |},
   Ok (jpg_name b (next_number (file_counter st) b))).
Proof.
  unfold next_name, next_number.
  cbv [bind get set_counter modify ret]. by destruct (file_counter st !! b).
Qed.

(** One iteration leaves the converted list and moves the registry on
    at most at the base name of its file, or it appends one record
    with the name that is next for the base name. *)
Lemma loop_body_registry sp file st :
  let st' := fst (loop_body sp file st) in
  let b := fst (Py.splitext (filename file)) in
  let k := next_number (file_counter st) b in
  (converted_files st' = converted_files st /\
   (file_counter st' = file_counter st \/ file_counter st' = <[b := k]> (file_counter st))) \/
  (exists data : list byte,
      converted_files st' = converted_files st ++
        [{| original := filename file; converted := jpg_name b k; size := length data |}] /\
      file_counter st' = <[b := k]> (file_counter st)).
Proof.
  cbn zeta. destruct (loop_body sp file st) as [st' r] eqn:Hbody. cbn [fst].
  revert Hbody. unfold loop_body.
  destruct (String.eqb (filename file) ""); [intros [= <- _]; left; auto|].
  destruct (is_heic (filename file)); cbn [negb]; [|intros [= <- _]; left; auto].
  unfold try_except, try_body.
  destruct (length (stream file) =? 0)%nat; [intros [= <- _]; left; auto|].
  unfold bind at 1. unfold lift at 1.
  destruct (Image_open (stream file)) as [img|]; [|intros [= <- _]; left; auto].
  unfold bind at 1. unfold lift at 1.
  destruct (normalize_mode img) as [img'|]; [|intros [= <- _]; left; auto].
  unfold bind at 1. rewrite next_name_eq.
  cbv [bind save get lift write_file append_converted append_failed modify ret].
  cbn [session_files converted_files failed_files file_counter fst snd].
  destruct (session_files st !! _) as [[]|]; cbn;
    try destruct (Image_save _ _ _); cbn; intros [= <- _]; cbn; eauto.
Qed.

Lemma numbered_step st st' b :
  numbered st ->
  converted_files st' = converted_files st ->
  file_counter st' = file_counter st \/
  file_counter st' = <[b := next_number (file_counter st) b]> (file_counter st) ->
  numbered st'.
Proof.
  intros Hnum Hc Hr i e. rewrite Hc. intros Hi.
  destruct (Hnum i e Hi) as (k & c & Hk & Hreg & Hle & Hearlier).
  destruct Hr as [->| ->]; [by exists k, c|].
  destruct (decide (b = base_of e)) as [->|Hne].
  - exists k, (next_number (file_counter st) (base_of e)).
    rewrite lookup_insert_eq. unfold next_number. rewrite Hreg.
    repeat split; [done|lia|done].
  - exists k, c. by rewrite lookup_insert_ne.
Qed.

Lemma numbered_append st st' e b :
  numbered st ->
  base_of e = b ->
  converted e = jpg_name b (next_number (file_counter st) b) ->
  converted_files st' = converted_files st ++ [e] ->
  file_counter st' = <[b := next_number (file_counter st) b]> (file_counter st) ->
  numbered st'.
Proof.
  intros Hnum Hb Hname Hc Hr i e'. rewrite Hc, Hr.
  intros [Hi|[Hlen Hi]]%lookup_app_Some.
  - destruct (Hnum i e' Hi) as (k & c & Hk & Hreg & Hle & Hearlier).
    assert (forall j e0, (j < i)%nat ->
              (converted_files st ++ [e]) !! j = Some e0 ->
              base_of e0 = base_of e' ->
              exists k', converted e0 = jpg_name (base_of e') k' /\ (k' < k)%nat) as Hearlier'.
    { intros j e0 Hj Hj0 Hb0. apply (Hearlier j e0 Hj); [|done].
      apply lookup_lt_Some in Hi. by rewrite lookup_app_l in Hj0 by lia. }
    destruct (decide (b = base_of e')) as [Hbe|Hne].
    + exists k, (next_number (file_counter st) b). rewrite Hbe at 1.
      rewrite lookup_insert_eq. unfold next_number. rewrite Hbe, Hreg.
      repeat split; [done|lia|done].
    + exists k, c. by rewrite lookup_insert_ne.
  - apply list_lookup_singleton_Some in Hi as [Hi <-].
    exists (next_number (file_counter st) b), (next_number (file_counter st) b).
    rewrite Hb, lookup_insert_eq. repeat split; [done|lia|].
    intros j e0 Hj Hj0 Hb0. rewrite lookup_app_l in Hj0 by lia.
    destruct (Hnum j e0 Hj0) as (k & c & Hk & Hreg & Hle & _).
    exists k. rewrite <- Hb0. split; [done|].
    unfold next_number. rewrite Hreg. lia.
Qed.

Lemma run_from_numbered sp files st : numbered st -> numbered (run_from sp files st).
Proof.
  revert st. induction files as [|file files IH]; intros st Hnum; [done|].
  rewrite run_from_cons. apply IH.
  destruct (loop_body_registry sp file st) as [[Hc Hr]|(data & Hc & Hr)].
  - by eapply numbered_step.
  - eapply (numbered_append st _ _ (fst (Py.splitext (filename file))));
      [exact Hnum| | |exact Hc|exact Hr]; reflexivity.
Qed.

(** X3. Of two converted files whose names have the same base name,
    the later one has the higher number in its output name: the
    output names of one base name are pairwise distinct. *)
Theorem same_base_outputs_distinct sp files c i j ei ej :
  converted_files (run_loop sp files c) !! i = Some ei ->
  converted_files (run_loop sp files c) !! j = Some ej ->
  (i < j)%nat ->
  base_of ei = base_of ej ->
  (exists ki kj, converted ei = jpg_name (base_of ei) ki /\
                 converted ej = jpg_name (base_of ej) kj /\ (ki < kj)%nat) /\
  converted ei <> converted ej.
Proof.
  rewrite run_loop_run_from. intros Hi Hj Hlt Hb.
  assert (numbered (run_from sp files (initial_state c))) as Hnum.
  { apply run_from_numbered. intros n e Hn. cbn in Hn. by rewrite lookup_nil in Hn. }
  destruct (Hnum j ej Hj) as (kj & _ & Hkj & _ & _ & Hearlier).
  destruct (Hearlier i ei Hlt Hi Hb) as (ki & Hki & Hk).
  split.
  - exists ki, kj. by rewrite Hb.
  - rewrite Hki, Hkj. intros Heq. apply jpg_name_inj in Heq. lia.
Qed.

(** *** Names without a separator *)

Lemma plain_app (a b : string) : plain (a +:+ b) = plain a && plain b.
Proof.
  unfold plain. rewrite list_ascii_of_string_app, existsb_app. by rewrite negb_orb.
Qed.

Lemma plain_substring i n (s : string) : plain s = true -> plain (substring i n s) = true.
Proof.
  revert i n. induction s as [|c s IH]; intros [|i] [|n]; cbn; try done.
  - unfold plain in *. cbn. rewrite !negb_orb. intros [-> Hs]%andb_true_iff. cbn.
    apply (IH 0%nat n Hs).
  - intros Hs. apply IH. unfold plain in *. cbn in Hs. rewrite negb_orb in Hs.
    by apply andb_true_iff in Hs as [_ ?].
  - intros Hs. apply IH. unfold plain in *. cbn in Hs. rewrite negb_orb in Hs.
    by apply andb_true_iff in Hs as [_ ?].
Qed.

Lemma plain_splitext (s : string) : plain s = true -> plain (fst (Py.splitext s)) = true.
Proof.
  intros Hs. unfold Py.splitext, Py._splitext, Py.slice.
  repeat case_match; cbn [fst]; try done; by apply plain_substring.
Qed.

Lemma plain_pretty_N_go x (s : string) : plain s = true -> plain (pretty_N_go x s) = true.
Proof.
  revert s. induction (N.lt_wf_0 x) as [x _ IH]. intros s Hs.
  destruct (decide (0 < x)%N) as [Hx|Hx].
  - rewrite pretty_N_go_step by done. apply IH.
    + by apply N.div_lt.
    + unfold plain in *. cbn. rewrite negb_orb, Hs, andb_true_r.
      unfold pretty_N_char. by repeat case_match.
  - assert (x = 0%N) as -> by lia. by rewrite pretty_N_go_0.
Qed.

Lemma plain_str_of_nat n : plain (Py.str_of_nat n) = true.
Proof.
  unfold Py.str_of_nat, pretty, pretty_nat, pretty, pretty_N.
  case_decide; [done|]. by apply plain_pretty_N_go.
Qed.

(** The output name for a name without a separator has none. *)
Lemma plain_jpg_name b k : plain b = true -> plain (jpg_name b k) = true.
Proof.
  intros Hb. destruct k as [|k]; unfold jpg_name; rewrite !plain_app, Hb;
    [done|by rewrite plain_str_of_nat].
Qed.

(** One iteration leaves the session directory, or files one output
    under the name that is next for the base name of its file. *)
Lemma loop_body_session sp file st :
  let st' := fst (loop_body sp file st) in
  session_files st' = session_files st \/
  exists k data,
    session_files st' =
      <[jpg_name (fst (Py.splitext (filename file))) k := Regular data]> (session_files st).
Proof.
  cbn zeta. destruct (loop_body sp file st) as [st' r] eqn:Hbody. cbn [fst].
  revert Hbody. unfold loop_body.
  destruct (String.eqb (filename file) ""); [intros [= <- _]; by left|].
  destruct (is_heic (filename file)); cbn [negb]; [|intros [= <- _]; by left].
  unfold try_except, try_body.
  destruct (length (stream file) =? 0)%nat; [intros [= <- _]; by left|].
  unfold bind at 1. unfold lift at 1.
  destruct (Image_open (stream file)) as [img|]; [|intros [= <- _]; by left].
  unfold bind at 1. unfold lift at 1.
  destruct (normalize_mode img) as [img'|]; [|intros [= <- _]; by left].
  unfold bind at 1. rewrite next_name_eq.
  cbv [bind save get lift write_file append_converted append_failed modify ret].
  cbn [session_files converted_files failed_files file_counter fst snd].
  destruct (session_files st !! _) as [[]|]; cbn;
    try destruct (Image_save _ _ _); cbn; intros [= <- _]; cbn; eauto.
Qed.

(** With names without a separator in the request, every output is an
    entry of the session directory under a name without one. *)
Lemma run_from_plain sp files st :
  Forall (fun f => plain (filename f) = true) files ->
  (forall n ent, session_files st !! n = Some ent -> plain n = true) ->
  forall n ent, session_files (run_from sp files st) !! n = Some ent -> plain n = true.
Proof.
  revert st. induction files as [|file files IH]; intros st Hall Hst; [done|].
  apply Forall_cons in Hall as [Hf Hall]. rewrite run_from_cons. apply IH; [done|].
  destruct (loop_body_session sp file st) as [->|(k & data & ->)]; [done|].
  intros n ent. destruct (decide (jpg_name (fst (Py.splitext (filename file))) k = n))
    as [<-|Hne].
  - intros _. by apply plain_jpg_name, plain_splitext.
  - rewrite lookup_insert_ne by done. apply Hst.
Qed.

(** *** The session directory and its download *)

Lemma run_from_session_matches sp files st :
  session_matches st -> session_matches (run_from sp files st).
Proof.
  apply (run_from_ind (fun files st st' => session_matches st -> session_matches st')); clear.
  - done.
  - intros file files st st1 st2 Hit IH Hm. apply IH. clear IH.
    destruct Hit as [_ ->|e _ Hc Hf Hs|jpg data _ _ _ Hc Hf Hs]; [done| |].
    + destruct Hm as [Hm1 Hm2]. split.
      * intros n ent. rewrite Hs, Hc. apply Hm1.
      * intros e0. rewrite Hs, Hc. apply Hm2.
    + destruct Hm as [Hm1 Hm2]. split.
      * intros n ent. rewrite Hs, Hc.
        destruct (decide (jpg = n)) as [->|Hne].
        -- rewrite lookup_insert_eq. intros [= <-].
           exists data, {| original := filename file; converted := n;
                           size := length data |}.
           split; [done|]. split; [|done].
           apply elem_of_app. right. by apply list_elem_of_singleton.
        -- rewrite lookup_insert_ne by done. intros Hn.
           destruct (Hm1 n ent Hn) as (d & e0 & -> & He0 & Hn0 & Hsz).
           exists d, e0. split; [done|]. split; [|done].
           apply elem_of_app. by left.
      * intros e0. rewrite Hs, Hc.
        intros [He0| ->%list_elem_of_singleton]%elem_of_app; cbn.
        -- destruct (decide (jpg = converted e0)) as [->|Hne].
           ++ by rewrite lookup_insert_eq.
           ++ rewrite lookup_insert_ne by done. by apply Hm2.
        -- by rewrite lookup_insert_eq.
Qed.

Lemma zip_members_names_NoDup (c : gmap string entry) :
  NoDup (zip_members c (listdir c)).*1.
Proof.
  unfold zip_members, listdir.
  assert (NoDup (map_to_list c).*1) as Hnd by apply NoDup_fst_map_to_list.
  induction ((map_to_list c).*1) as [|n l IH]; cbn; [constructor|].
  apply NoDup_cons in Hnd as [Hn Hnd].
  destruct (c !! n) as [[data|]|]; cbn; [|by apply IH..].
  constructor; [|by apply IH].
  intros ((m & d) & Hm & Hin)%list_elem_of_fmap. cbn in Hm. subst m.
  apply list_elem_of_omap in Hin as (m & Hml & Hm).
  destruct (c !! m) as [[d'|]|]; simplify_eq. done.
Qed.

(** X4. For a session directory that is not empty the download
    answers with the archive whose members are the regular files of the
    directory, each once and under its own name; it writes the archive
    next to the session directory and leaves every other entry of the
    temporary directory, the session directory with them, as it
    was. *)
Theorem download_zip_serves_directory session_id temp c :
  temp !! session_id = Some (Dir c) ->
  c <> ∅ ->
  (forall c', temp !! (session_id +:+ ".zip") <> Some (Dir c')) ->
  let members := zip_members c (listdir c) in
  let temp' := fst (download_zip ZipFile session_id temp) in
  snd (download_zip ZipFile session_id temp) =
    SendFile (ZipFile members) "converted_images.zip" /\
  (forall n data, (n, data) ∈ members <-> c !! n = Some (Regular data)) /\
  NoDup members.*1 /\
  temp' !! (session_id +:+ ".zip") = Some (File (ZipFile members)) /\
  (forall k, k <> session_id +:+ ".zip" -> temp' !! k = temp !! k).
Proof.
  intros Hs Hc Hz members temp'. subst temp'.
  rewrite (download_zip_archive ZipFile session_id temp c Hs Hc Hz). cbn [fst snd].
  split; [done|]. split; [apply zip_members_spec|]. split; [apply zip_members_names_NoDup|].
  split; [apply lookup_insert_eq|]. intros k Hk. by rewrite lookup_insert_ne.
Qed.

(** X5. A download that was served can be asked for again: the second
    call sends the same archive and leaves the temporary directory as
    the first call left it. *)
Theorem download_zip_twice session_id temp temp1 archive download_name :
  download_zip ZipFile session_id temp = (temp1, SendFile archive download_name) ->
  download_zip ZipFile session_id temp1 = (temp1, SendFile archive download_name).
Proof.
  unfold download_zip at 1.
  destruct (temp !! session_id) as [[d|c]|] eqn:Hs; [done| |done].
  destruct (length (listdir c) =? 0)%nat eqn:Hl; [done|].
  destruct (temp !! (session_id +:+ ".zip")) as [[d|c']|] eqn:Hz; [|done|];
    intros [= <- <- <-]; unfold download_zip;
    rewrite lookup_insert_ne by apply archive_name_ne;
    rewrite Hs, Hl, lookup_insert_eq, insert_insert_eq; done.
Qed.


(** X7. When the answer is that no files were converted, the failed
    list of the answer has one record for each uploaded entry with a
    name. *)
Theorem all_failed_lists_each_entry uuid4 request_files temp temp' failed :
  convert_files TEMP_DIR uuid4 request_files temp =
    (temp', JsonError 400 "No files were converted" (Some failed)) ->
  length failed = length (named_files (getlist "files" request_files)) /\
  sublist (name <$> failed) (filename <$> named_files (getlist "files" request_files)).
Proof.
  unfold convert_files.
  destruct (negb (contains _ _)); [done|].
  destruct (_ || _); [done|].
  destruct (makedirs temp uuid4) as [[temp1 c]|]; [|done].
  destruct (length (converted_files _) =? 0)%nat eqn:Hl; [|done].
  intros [= <- <-]. rewrite run_loop_run_from in *.
  pose proof (run_from_counts (Py.join TEMP_DIR uuid4) (getlist "files" request_files)
                (initial_state c)) as Hn.
  apply Nat.eqb_eq in Hl. rewrite Hl in Hn. cbn in Hn. split; [done|].
  destruct (run_from_order (Py.join TEMP_DIR uuid4) (getlist "files" request_files)
              (initial_state c)) as (cs & fs & _ & -> & _ & Hs & _).
  done.
Qed.

(** X19. A convert request whose uploads have names without a path
    separator changes no entry of the temporary directory but its own
    session directory, whatever the answer is: the sessions and the
    archives of other requests are as they were. In its session
    directory, made for a fresh id, every entry is a regular file
    under a name without a separator. *)
Theorem convert_files_touches_own_session uuid4 request_files temp :
  Forall (fun f => plain (filename f) = true) (getlist "files" request_files) ->
  let temp' := fst (convert_files TEMP_DIR uuid4 request_files temp) in
  (forall k, k <> uuid4 -> temp' !! k = temp !! k) /\
  (temp !! uuid4 = None ->
   forall c n ent, temp' !! uuid4 = Some (Dir c) -> c !! n = Some ent ->
     plain n = true /\ exists data, ent = Regular data).
Proof.
  intros Hplain temp'. split.
  - intros k Hk. subst temp'. unfold convert_files.
    destruct (negb (contains _ _)); [done|].
    destruct (_ || _); [done|].
    unfold makedirs. destruct (temp !! uuid4) as [[d|c]|]; [done| |].
    + destruct (length _ =? 0)%nat; cbn [fst]; by rewrite lookup_insert_ne.
    + destruct (length _ =? 0)%nat; cbn [fst]; by rewrite !lookup_insert_ne.
  - intros Hfresh c n ent. subst temp'.
    destruct (has_named_file (getlist "files" request_files)) eqn:Hn.
    2:{ destruct (convert_files_rejected TEMP_DIR uuid4 request_files temp Hn) as [-> _].
        by rewrite Hfresh. }
    rewrite (convert_files_accepted TEMP_DIR uuid4 request_files temp Hn Hfresh).
    cbn [fst]. rewrite lookup_insert_eq, run_loop_run_from. intros [= <-] Hent. split.
    + eapply run_from_plain; [exact Hplain| |exact Hent].
      intros k e Hk. cbn in Hk. by rewrite lookup_empty in Hk.
    + assert (session_matches (run_from (Py.join TEMP_DIR uuid4)
                (getlist "files" request_files) (initial_state ∅))) as [Hm _].
      { apply run_from_session_matches. split.
        - intros k e Hl. cbn in Hl. by rewrite lookup_empty in Hl.
        - intros e He. cbn in He. by apply elem_of_nil in He. }
      destruct (Hm _ _ Hent) as (data & _ & -> & _). by exists data.
Qed.

End WithLibrary.

(** *** Closed instances *)

Lemma rejected_entries_reported_witness :
  let file := {| filename := "notes.txt"; stream := Sample.photo |} in
  let files := [{| filename := "a.heic"; stream := Sample.photo |}; file] in
  file ∈ files /\ filename file <> "" /\ is_heic (filename file) = false /\
  {| name := "notes.txt"; error := "Not a HEIC/HEIF file" |}
    ∈ failed_files (run_loop (lib := Sample.library) "/tmp/s" files ∅).
Proof.
  intros file files.
  assert (file ∈ files) as Hin by (right; left).
  assert (filename file <> "") as Hn by discriminate.
  assert (is_heic (filename file) = false) as Hh by (vm_compute; reflexivity).
  split; [exact Hin|]. split; [exact Hn|]. split; [exact Hh|].
  by apply (rejected_entries_reported (lib := Sample.library) "/tmp/s" files ∅ file Hin Hn).
Defined.

Lemma same_base_outputs_distinct_witness :
  let files := [{| filename := "a.heic"; stream := [x01] |};
                {| filename := "a.HEIF"; stream := [x02] |}] in
  let conv := converted_files (run_loop (lib := Sample.library) "/tmp/s" files ∅) in
  conv !! 0%nat = Some {| original := "a.heic"; converted := "a.jpg"; size := 1 |} /\
  conv !! 1%nat = Some {| original := "a.HEIF"; converted := "a_1.jpg"; size := 1 |} /\
  "a.jpg" <> "a_1.jpg".
Proof.
  intros files conv.
  assert (conv !! 0%nat = Some {| original := "a.heic"; converted := "a.jpg"; size := 1 |})
    as H0 by (vm_compute; reflexivity).
  assert (conv !! 1%nat = Some {| original := "a.HEIF"; converted := "a_1.jpg"; size := 1 |})
    as H1 by (vm_compute; reflexivity).
  split; [exact H0|]. split; [exact H1|].
  apply (same_base_outputs_distinct (lib := Sample.library) "/tmp/s" files ∅ 0 1 _ _ H0 H1);
    [lia|vm_compute; reflexivity].
Defined.

Lemma download_zip_serves_directory_witness :
  let c : gmap string entry := {["a.jpg" := Regular Sample.photo]} in
  let temp : gmap string node := {["s" := Dir c]} in
  temp !! "s" = Some (Dir c) /\
  snd (download_zip Sample.ZipFile "s" temp) =
    SendFile (Sample.ZipFile (zip_members c (listdir c))) "converted_images.zip".
Proof.
  intros c temp.
  assert (temp !! "s" = Some (Dir c)) as Hs by (vm_compute; reflexivity).
  assert (c <> ∅) as Hc.
  { intros He. apply (f_equal (fun m : gmap string entry => m !! "a.jpg")) in He.
    vm_compute in He. discriminate He. }
  assert (forall c', temp !! ("s" +:+ ".zip") <> Some (Dir c')) as Hz.
  { intros c' He. vm_compute in He. discriminate He. }
  split; [exact Hs|].
  apply (download_zip_serves_directory Sample.ZipFile "s" temp c Hs Hc Hz).
Defined.

Lemma download_zip_twice_witness :
  let temp : gmap string node := {["s" := Dir {["a.jpg" := Regular Sample.photo]}]} in
  let served := download_zip Sample.ZipFile "s" temp in
  served = (<["s.zip" := File Sample.photo]> temp,
            SendFile Sample.photo "converted_images.zip") /\
  download_zip Sample.ZipFile "s" (fst served) = served.
Proof.
  intros temp served.
  assert (served = (<["s.zip" := File Sample.photo]> temp,
                    SendFile Sample.photo "converted_images.zip")) as Hs
    by (vm_compute; reflexivity).
  split; [exact Hs|]. rewrite Hs at 2. cbn [fst].
  apply (download_zip_twice Sample.ZipFile "s" temp). exact Hs.
Defined.


Lemma all_failed_lists_each_entry_witness :
  convert_files (lib := Sample.library) Sample.TEMP_DIR "u"
    [Sample.upload "notes.txt" Sample.photo; Sample.upload "" []; Sample.upload "e.heic" []]
    ∅ =
  (<["u" := Dir ∅]> ∅,
   JsonError 400 "No files were converted"
     (Some [{| name := "notes.txt"; error := "Not a HEIC/HEIF file" |};
            {| name := "e.heic"; error := "Empty file" |}])) /\
  length [{| name := "notes.txt"; error := "Not a HEIC/HEIF file" |};
          {| name := "e.heic"; error := "Empty file" |}] = 2%nat.
Proof.
  assert (convert_files (lib := Sample.library) Sample.TEMP_DIR "u"
            [Sample.upload "notes.txt" Sample.photo; Sample.upload "" [];
             Sample.upload "e.heic" []] ∅ =
          (<["u" := Dir ∅]> ∅,
           JsonError 400 "No files were converted"
             (Some [{| name := "notes.txt"; error := "Not a HEIC/HEIF file" |};
                    {| name := "e.heic"; error := "Empty file" |}]))) as Hrun
    by (vm_compute; reflexivity).
  split; [exact Hrun|].
  apply (all_failed_lists_each_entry (lib := Sample.library) _ _ _ _ _ _ Hrun).
Defined.

Lemma convert_files_touches_own_session_witness :
  let temp : gmap string node := {["other.zip" := File [x50]]} in
  let request := [Sample.upload "a.heic" Sample.photo] in
  Forall (fun f => plain (filename f) = true) (getlist "files" request) /\
  fst (convert_files (lib := Sample.library) Sample.TEMP_DIR "u" request temp) !! "other.zip" =
    Some (File [x50]).
Proof.
  intros temp request.
  assert (Forall (fun f => plain (filename f) = true) (getlist "files" request)) as Hplain
    by (repeat constructor).
  split; [exact Hplain|].
  destruct (convert_files_touches_own_session (lib := Sample.library) Sample.TEMP_DIR "u"
              request temp Hplain) as [Hframe _].
  rewrite Hframe by discriminate. vm_compute. reflexivity.
Defined.

End WebMore.

(** * More on the command-line tool *)

Module CliMore.
Import Cli CliProps.

(** *** What holds of every step holds of a run *)

Section Steps.
Context `{lib : Imaging} `{os : OS}.
Variable R : state -> state -> Prop.
Hypothesis R_refl : forall st, R st st.
Hypothesis R_trans : forall st1 st2 st3, R st1 st2 -> R st2 st3 -> R st1 st3.
Hypothesis R_print : forall line st, R st (fst (print line st)).
Hypothesis R_convert :
  forall heic_path output_dir quality st,
    R st (fst (convert_heic_to_jpg heic_path output_dir quality st)).

#[local] Abbreviation steps := (Cli.steps R).

Lemma steps_ret {A} (a : A) : steps (ret a).
Proof. intros st. apply R_refl. Qed.

Lemma steps_raise {A} e : steps (lift (Raise e : result A)).
Proof. intros st. apply R_refl. Qed.

Lemma steps_bind {A B} (m : M state A) (k : A -> M state B) :
  steps m -> (forall a, steps (k a)) -> steps (bind m k).
Proof.
  intros Hm Hk st. unfold bind. specialize (Hm st).
  destruct (m st) as [st1 [a|e]]; cbn in *; [|done].
  eapply R_trans; [done|]. apply Hk.
Qed.

Lemma steps_get_bind {A} (k : state -> M state A) :
  (forall st, steps (k st)) -> steps (bind get k).
Proof. intros Hk. apply steps_bind; [intros st; apply R_refl|done]. Qed.

Lemma steps_print line : steps (print line).
Proof. intros st. apply R_print. Qed.

Lemma steps_Path_exists p : steps (Path_exists p).
Proof. intros st. rewrite Path_exists_state. apply R_refl. Qed.

Lemma steps_Path_is_file p : steps (Path_is_file p).
Proof. intros st. rewrite Path_is_file_state. apply R_refl. Qed.

Lemma steps_Path_is_dir p : steps (Path_is_dir p).
Proof. intros st. rewrite Path_is_dir_state. apply R_refl. Qed.

Lemma steps_convert heic_path output_dir quality :
  steps (convert_heic_to_jpg heic_path output_dir quality).
Proof. intros st. apply R_convert. Qed.

Create HintDb steps.
#[local] Hint Resolve steps_ret steps_raise steps_print steps_convert : steps.

Lemma steps_folder_loop files create_subfolder quality converted failed :
  steps (folder_loop files create_subfolder quality converted failed).
Proof.
  revert converted failed. induction files as [|f files IH]; intros converted failed; cbn.
  - apply steps_ret.
  - apply steps_bind; [apply steps_convert|]. intros [t|]; apply IH.
Qed.

Lemma steps_convert_folder folder_path recursive create_subfolder quality :
  steps (convert_folder folder_path recursive create_subfolder quality).
Proof.
  unfold convert_folder. apply steps_bind; [apply steps_Path_exists|]. intros found.
  destruct (negb _).
  { apply steps_bind; auto with steps. }
  apply steps_get_bind. intros st.
  destruct (_ =? _)%nat.
  { apply steps_bind; auto with steps. }
  repeat (apply steps_bind; [auto using steps_folder_loop with steps|intros ?]).
  apply steps_ret.
Qed.

Lemma steps_main_loop a ps total_converted total_failed :
  steps (main_loop a ps total_converted total_failed).
Proof.
  revert total_converted total_failed.
  induction ps as [|path ps IH]; intros total_converted total_failed; cbn.
  - apply steps_ret.
  - apply steps_bind; [apply steps_Path_is_file|]. intros [|].
    { apply steps_bind; [apply steps_convert|]. intros [t|]; apply IH. }
    apply steps_bind; [apply steps_Path_is_dir|]. intros [|].
    { apply steps_bind; [apply steps_convert_folder|]. intros counts. apply IH. }
    apply steps_bind; [apply steps_print|]. intros _. apply IH.
Qed.

Lemma steps_main a : steps (main a).
Proof.
  unfold main. destruct (paths a); [apply steps_ret|].
  repeat (apply steps_bind; [auto using steps_main_loop with steps|intros ?]).
  apply steps_ret.
Qed.

Lemma steps_menu : steps menu.
Proof.
  unfold menu, prompt.
  repeat (apply steps_bind; [apply steps_print|intros ?]). apply steps_print.
Qed.

Lemma steps_interactive_loop lines : steps (interactive_loop lines).
Proof.
  remember (length lines) as n eqn:Hn. revert lines Hn.
  induction n as [n IH] using lt_wf_ind. intros lines ->.
  assert (forall rest, (length rest < length lines)%nat -> steps (interactive_loop rest))
    as Hrec by (intros rest Hlt; by eapply IH).
  clear IH. destruct lines as [|l1 rest1]; cbn [interactive_loop].
  { apply steps_bind; [apply steps_menu|]. intros _. apply steps_raise. }
  apply steps_bind; [apply steps_menu|]. intros _. unfold prompt.
  destruct (String.eqb (Py.strip l1) "1").
  { apply steps_bind; [apply steps_print|]. intros _.
    destruct rest1 as [|l2 rest2]; [apply steps_raise|].
    destruct (negb _); [|apply Hrec; cbn; lia].
    apply steps_bind; [apply steps_print|]. intros _.
    destruct rest2 as [|l3 rest3]; [apply steps_raise|].
    apply steps_bind; [apply steps_convert|]. intros _. apply Hrec. cbn. lia. }
  destruct (String.eqb (Py.strip l1) "2").
  { apply steps_bind; [apply steps_print|]. intros _.
    destruct rest1 as [|l2 rest2]; [apply steps_raise|].
    destruct (negb _); [|apply Hrec; cbn; lia].
    apply steps_bind; [apply steps_print|]. intros _.
    destruct rest2 as [|l3 rest3]; [apply steps_raise|].
    apply steps_bind; [apply steps_convert_folder|]. intros _. apply Hrec. cbn. lia. }
  destruct (String.eqb (Py.strip l1) "3").
  { apply steps_bind; [apply steps_print|]. intros _.
    destruct rest1 as [|l2 rest2]; [apply steps_raise|].
    destruct (negb _); [|apply Hrec; cbn; lia].
    apply steps_bind; [apply steps_print|]. intros _.
    destruct rest2 as [|l3 rest3]; [apply steps_raise|].
    apply steps_bind; [apply steps_convert_folder|]. intros _. apply Hrec. cbn. lia. }
  destruct (String.eqb (Py.strip l1) "4"); [apply steps_print|].
  apply steps_bind; [apply steps_print|]. intros _. apply Hrec. cbn. lia.
Qed.

Lemma steps_interactive_mode lines : steps (interactive_mode lines).
Proof.
  unfold interactive_mode.
  repeat (apply steps_bind; [apply steps_print|intros ?]). apply steps_interactive_loop.
Qed.

Lemma steps_cli_main a lines : steps (cli_main a lines).
Proof.
  unfold cli_main. destruct (paths a) eqn:Hp.
  - apply steps_bind; [apply steps_interactive_mode|]. intros _. apply steps_ret.
  - pose proof (steps_main a) as Hm. unfold main in *. by rewrite Hp in *.
Qed.

End Steps.

(** *** Files kept and files made *)

Lemma fs_write_dir_files fs0 q p data :
  fs_lookup (fs_write fs0 q FDir) p = Some (FFile data) ->
  fs_lookup fs0 p = Some (FFile data).
Proof. rewrite fs_lookup_write. by destruct (decide (q = p)). Qed.

(** Making directories makes no file. *)
Lemma mkdir_prefixes_files `{os : OS} d n fs0 p data :
  fs_lookup (fst (mkdir_prefixes d n fs0)) p = Some (FFile data) ->
  fs_lookup fs0 p = Some (FFile data).
Proof.
  induction n as [|n IH]; cbn; [done|].
  destruct (mkdir_prefixes d n fs0) as [fs1 [[]|e]]; cbn [fst] in *; [|done].
  destruct (stat_error _); [done|].
  destruct (stat fs1 (take (S n) d)) as [[|]|]; [done..|].
  destruct (mkdir_error _); [done|]. cbn [fst].
  intros Hp%fs_write_dir_files. by apply IH.
Qed.

Lemma string_substring_app_skip (s t : string) m :
  substring (String.length s) m (s +:+ t) = substring 0 m t.
Proof. induction s as [|c s IH]; [done|]. exact IH. Qed.

Lemma string_substring_all (t : string) : substring 0 (String.length t) t = t.
Proof. induction t as [|c t IH]; [done|]. cbn. by rewrite IH. Qed.

Lemma endswith_app (s suffix : string) : Py.endswith (s +:+ suffix) suffix = true.
Proof.
  unfold Py.endswith. rewrite WebProps.string_length_app.
  replace (String.length s + String.length suffix - String.length suffix)%nat
    with (String.length s) by lia.
  rewrite string_substring_app_skip, string_substring_all, String.eqb_refl.
  apply andb_true_iff. split; [|done]. apply Nat.leb_le. lia.
Qed.

Lemma name_jpg_target heic_path output_dir :
  name (jpg_target heic_path output_dir) = stem heic_path +:+ ".jpg".
Proof.
  unfold jpg_target, div.
  match goal with |- context [?d ++ [_]] => generalize d end.
  intros d. unfold name.
  assert (stem heic_path +:+ ".jpg" <> "/") as Hne.
  { intros Heq. apply (f_equal String.length) in Heq.
    rewrite WebProps.string_length_app in Heq. cbn in Heq. lia. }
  assert (List.last (d ++ [stem heic_path +:+ ".jpg"]) "" = stem heic_path +:+ ".jpg")
    as Hlast by apply List.last_last.
  destruct d as [|c d]; cbn [app] in *.
  - repeat case_match; simplify_eq; done.
  - destruct d; cbn [app] in *; repeat case_match; simplify_eq; done.
Qed.

Section WithLibrary.
Context `{lib : Imaging} `{os : OS}.

Lemma determine_output_files heic_path output_dir st st1 r p data :
  determine_output heic_path output_dir st = (st1, r) ->
  fs_lookup (fs st1) p = Some (FFile data) -> fs_lookup (fs st) p = Some (FFile data).
Proof.
  unfold determine_output. destruct output_dir as [a|]; [|by intros [= <- _]].
  destruct (truthy (Some a)); [|by intros [= <- _]].
  unfold bind, mkdir.
  pose proof (mkdir_prefixes_files (Path_of_arg a) (length (Path_of_arg a)) (fs st) p data)
    as Hm.
  by destruct (mkdir_prefixes _ _ _) as [fs' [[]|e]]; intros [= <- _].
Qed.

(** The one file that a call of [convert_heic_to_jpg] can make is its
    target. *)
Lemma convert_heic_to_jpg_files heic_path output_dir quality st p data :
  fs_lookup (fs (fst (convert_heic_to_jpg heic_path output_dir quality st))) p =
    Some (FFile data) ->
  fs_lookup (fs st) p = Some (FFile data) \/
  (fs_lookup (fs st) p = None /\ p = jpg_target heic_path output_dir).
Proof.
  destruct (convert_heic_to_jpg_cases heic_path output_dir quality st)
    as [(e & _ & ->)|[(_ & _ & ->)|(_ & _ & [(st1 & e & Hd & ->)|(st1 & d & Hd & Hc)])]];
    cbn [fst fs].
  - by left.
  - by left.
  - intros Hp. left. by eapply determine_output_files.
  - pose proof (determine_output_preserved _ _ _ _ _ Hd) as Hpres.
    assert (forall data0, fs_lookup (fs st1) p = Some (FFile data0) ->
                          fs_lookup (fs st) p = Some (FFile data0)) as Hfiles
      by (intros data0; by eapply determine_output_files).
    destruct Hc as [(e & _ & ->)|[(_ & _ & ->)|(_ & Hex & ->)]]; cbn [fst fs].
    + intros Hp. left. auto.
    + intros Hp. left. auto.
    + apply exists_false in Hex.
      cbv [try_except try_block except_block bind open_path lift save set_fs modify print ret].
      cbn [fs stdout fst snd].
      destruct (open_result (fs st1) heic_path) as [img|]; cbn; [|intros; left; auto].
      destruct (normalize_mode img) as [img'|]; cbn; [|intros; left; auto].
      destruct (Image_save _ _ _) as [out|]; cbn; [|intros; left; auto].
      rewrite fs_lookup_write.
      destruct (decide (jpg_target heic_path output_dir = p)) as [<-|Hne];
        [|intros; left; auto].
      intros _. right. split; [|done].
      destruct (fs_lookup (fs st) (jpg_target heic_path output_dir)) as [n|] eqn:Hl; [|done].
      apply Hpres in Hl. congruence.
Qed.

Lemma only_jpg_created_refl st : only_jpg_created st st.
Proof. split; [by intros p n|]. intros p data Hp. by left. Qed.

Lemma only_jpg_created_trans st1 st2 st3 :
  only_jpg_created st1 st2 -> only_jpg_created st2 st3 -> only_jpg_created st1 st3.
Proof.
  intros [Hp12 Hj12] [Hp23 Hj23]. split; [intros q n Hq; by apply Hp23, Hp12|].
  intros p data Hp. destruct (Hj23 p data Hp) as [H2|[H2 Hn]]; [by apply Hj12|].
  right. split; [|done].
  destruct (fs_lookup (fs st1) p) as [n|] eqn:H1; [|done].
  apply Hp12 in H1. congruence.
Qed.

Lemma only_jpg_created_convert heic_path output_dir quality st :
  only_jpg_created st (fst (convert_heic_to_jpg heic_path output_dir quality st)).
Proof.
  split.
  - destruct (convert_heic_to_jpg heic_path output_dir quality st) as [st' r] eqn:Hc.
    by eapply convert_heic_to_jpg_preserved.
  - intros p data Hp.
    destruct (convert_heic_to_jpg_files _ _ _ _ _ _ Hp) as [?|[? ->]]; [by left|].
    right. split; [done|]. rewrite name_jpg_target. apply endswith_app.
Qed.

(** X8. No run of the tool, with paths on the command line or in
    interactive mode, changes or removes a file or a directory that
    was there when it began, whatever the imaging library does and
    also when the run ends in an exception. *)
Theorem cli_main_keeps_files a lines st p n :
  fs_lookup (fs st) p = Some n ->
  fs_lookup (fs (fst (cli_main a lines st))) p = Some n.
Proof.
  revert p n.
  apply (steps_cli_main (fun st st' => preserved (fs st) (fs st'))); clear.
  - by intros st p n.
  - intros st1 st2 st3 H12 H23 p n Hp. by apply H23, H12.
  - by intros line st p n.
  - intros heic_path output_dir quality st.
    apply (only_jpg_created_convert heic_path output_dir quality st).
Qed.

(** X9. Every file that is there after a run and was not there before
    has a name that ends in [.jpg]. *)
Theorem cli_main_makes_jpg_only a lines st p data :
  fs_lookup (fs (fst (cli_main a lines st))) p = Some (FFile data) ->
  fs_lookup (fs st) p = Some (FFile data) \/
  (fs_lookup (fs st) p = None /\ Py.endswith (name p) ".jpg" = true).
Proof.
  revert p data.
  apply (steps_cli_main only_jpg_created); clear.
  - apply only_jpg_created_refl.
  - apply only_jpg_created_trans.
  - intros line st. split; [by intros q n|]. intros q d Hq. by left.
  - apply only_jpg_created_convert.
Qed.

End WithLibrary.

(** *** A second call *)

Lemma stat_special_or_lookup fs0 p :
  stat fs0 p = fs_lookup fs0 p \/ (forall fs1, stat fs1 p = Some FDir).
Proof. unfold stat. repeat case_match; auto. Qed.

Lemma stat_write_other fs0 q n p : q <> p -> stat (fs_write fs0 q n) p = stat fs0 p.
Proof.
  intros Hne. unfold stat. repeat case_match; try done;
    rewrite fs_lookup_write; by destruct (decide (q = _)).
Qed.

Lemma stat_write_dir fs0 q : stat (fs_write fs0 q FDir) q = Some FDir.
Proof.
  destruct (stat_special_or_lookup (fs_write fs0 q FDir) q) as [->|Hs]; [|apply Hs].
  rewrite fs_lookup_write. by destruct (decide (q = q)).
Qed.

(** A write to a path that is free leaves the directories
    directories. *)
Lemma stat_dir_write fs0 q n p :
  stat fs0 q = None -> stat fs0 p = Some FDir -> stat (fs_write fs0 q n) p = Some FDir.
Proof.
  intros Hq Hp. rewrite stat_write_other; [done|]. intros ->. congruence.
Qed.

(** After [mkdir] the directory and its ancestors are directories
    at which the system does not stop. *)
Lemma mkdir_prefixes_dirs `{os : OS} d n fs0 fs' :
  mkdir_prefixes d n fs0 = (fs', Ok tt) ->
  forall k, (0 < k <= n)%nat ->
    stat_error (take k d) = None /\ stat fs' (take k d) = Some FDir.
Proof.
  revert fs'. induction n as [|n IH]; intros fs'; cbn; [intros _ k; lia|].
  destruct (mkdir_prefixes d n fs0) as [fs1 [[]|e]]; [|done].
  specialize (IH fs1 eq_refl).
  destruct (stat_error (take (S n) d)) eqn:He; [done|].
  destruct (stat fs1 (take (S n) d)) as [[|]|] eqn:Hs; [done| |].
  - intros [= <-] k Hk.
    destruct (decide (k = S n)) as [->|]; [done|]. apply IH. lia.
  - destruct (mkdir_error _); [done|]. intros [= <-] k Hk.
    destruct (decide (k = S n)) as [->|]; [split; [done|apply stat_write_dir]|].
    destruct (IH k) as [? ?]; [lia|]. split; [done|]. by apply stat_dir_write.
Qed.

Lemma exists_preserved fs0 fs' p :
  exists_ fs0 p = true -> preserved fs0 fs' -> exists_ fs' p = true.
Proof.
  unfold exists_. intros Hp Hpres.
  destruct (stat_special_or_lookup fs0 p) as [Hs|Hs]; [|by rewrite Hs].
  rewrite Hs in Hp. destruct (fs_lookup fs0 p) as [n|] eqn:Hl; [|done].
  apply Hpres in Hl.
  destruct (stat_special_or_lookup fs' p) as [Hs'|Hs']; [|by rewrite Hs'].
  by rewrite Hs', Hl.
Qed.

Lemma is_file_preserved fs0 fs' p :
  is_file fs0 p = true -> preserved fs0 fs' -> is_file fs' p = true.
Proof.
  unfold is_file. intros Hp Hpres.
  destruct (stat fs0 p) as [[content|]|] eqn:Hs; try done.
  destruct (stat_special_or_lookup fs' p) as [Hs'|Hs'].
  - apply stat_file, Hpres in Hs. by rewrite Hs', Hs.
  - rewrite Hs' in Hs. discriminate Hs.
Qed.

Section Again.
Context `{lib : Imaging} `{os : OS}.

(** Where the directories of the first call are directories, the
    block that determines the output path makes nothing. *)
Lemma determine_output_again heic_path output_dir st st1 d st2 :
  determine_output heic_path output_dir st = (st1, Ok d) ->
  (forall p, stat (fs st1) p = Some FDir -> stat (fs st2) p = Some FDir) ->
  determine_output heic_path output_dir st2 = (st2, Ok d).
Proof.
  unfold determine_output. destruct output_dir as [a|]; [|by intros [= _ <-]].
  destruct (truthy (Some a)); [|by intros [= _ <-]].
  unfold mkdir. cbv [bind ret].
  destruct (mkdir_prefixes _ _ (fs st)) as [fs' [[]|e]] eqn:Hm; [|done].
  intros [= <- <-] Hdirs. cbn [fs] in Hdirs.
  rewrite mkdir_prefixes_noop; [by destruct st2|].
  intros k Hk. destruct (mkdir_prefixes_dirs _ _ _ _ Hm k Hk) as [? ?]. auto.
Qed.

(** X10. A call of [convert_heic_to_jpg] that gave back a path, after
    a conversion or after a skip, is followed by a skip: the same call
    again gives back the same path, reports the file as skipped and
    writes nothing. *)
Theorem convert_heic_to_jpg_twice heic_path output_dir quality st st1 t :
  convert_heic_to_jpg heic_path output_dir quality st = (st1, Ok (Some t)) ->
  convert_heic_to_jpg heic_path output_dir quality st1 =
    ({| fs := fs st1;
        stdout := stdout st1 ++ ["  Skipped (exists): " +:+ stem heic_path +:+ ".jpg"] |},
     Ok (Some t)).
Proof.
  intros Hfirst.
  assert (exists sa d,
    Path_exists heic_path st = (st, Ok true) /\
    determine_output heic_path output_dir st = (sa, Ok d) /\
    t = jpg_target heic_path output_dir /\
    stat_error t = None /\
    exists_ (fs st1) t = true /\
    preserved (fs sa) (fs st1) /\
    (forall p, stat (fs sa) p = Some FDir -> stat (fs st1) p = Some FDir))
    as (sa & d & Hsrc & Hd & -> & Herr & Htgt & Hpres & Hdirs).
  { revert Hfirst.
    destruct (convert_heic_to_jpg_cases heic_path output_dir quality st)
      as [(e & _ & ->)|[(_ & _ & ->)|(Hse & Hex & [(sa & e & Hd & ->)|(sa & d & Hd & Hc)])]];
      [done..|].
    assert (Path_exists heic_path st = (st, Ok true)) as Hsrc by by apply Path_exists_Ok.
    destruct Hc as [(e & _ & ->)|[(Hte & Hex1 & ->)|(Hte & Hex1 & ->)]]; [done| |].
    - intros [= <- <-]. exists sa, d. cbn [fs]. repeat split; try done. by intros p n.
    - cbv [try_except try_block except_block bind open_path lift save set_fs modify
           print ret]. cbn [fs stdout fst snd].
      destruct (open_result (fs sa) heic_path) as [img|]; [|done].
      destruct (normalize_mode img) as [img'|]; [|done].
      destruct (Image_save _ _ _) as [out|]; [|done].
      intros [= <- <-]. exists sa, d. cbn [fs]. repeat split; try done.
      + unfold exists_. rewrite stat_jpg_target, fs_lookup_write.
        by destruct (decide (_ = _)).
      + by apply preserved_write, exists_false.
      + intros p Hp. apply stat_dir_write; [|done].
        unfold exists_ in Hex1. by destruct (stat (fs sa) _). }
  apply Path_exists_Ok in Hsrc as [Hse Hex].
  assert (Path_exists heic_path st1 = (st1, Ok true)) as Hsrc1.
  { apply Path_exists_Ok. split; [done|].
    eapply exists_preserved; [|exact Hpres].
    eapply exists_preserved; [exact Hex|by eapply determine_output_preserved]. }
  assert (Path_exists (jpg_target heic_path output_dir) st1 = (st1, Ok true)) as Htgt1
    by by apply Path_exists_Ok.
  pose proof (determine_output_again _ _ _ _ _ st1 Hd Hdirs) as Hd1.
  destruct (determine_output_target _ _ _ _ _ Hd) as [Hdiv _].
  unfold convert_heic_to_jpg. unfold bind at 1. rewrite Hsrc1. cbn [negb].
  unfold bind at 1. rewrite Hd1. unfold bind at 1. by rewrite Hdiv, Htgt1.
Qed.

End Again.

(** *** The counts and the places of the output *)

Section Counts.
Context `{lib : Imaging} `{os : OS}.

Lemma main_loop_files_counted a ps total_converted total_failed st st' totals :
  Forall (fun path => is_file (fs st) (Path_of_str path) = true) ps ->
  main_loop a ps total_converted total_failed st = (st', Ok totals) ->
  (fst totals + snd totals = total_converted + total_failed + length ps)%nat.
Proof.
  revert total_converted total_failed st.
  induction ps as [|path ps IH]; intros tc tf st Hall; cbn [main_loop].
  - intros [= _ <-]. cbn. lia.
  - apply Forall_cons in Hall as [Hf Hall].
    unfold bind at 1. unfold Path_is_file. destruct (stat_error _); [done|].
    rewrite Hf. unfold bind at 1.
    destruct (convert_heic_to_jpg _ _ _ st) as [st1 [[t|]|e]] eqn:Hc; [| |done];
      (assert (Forall (fun path => is_file (fs st1) (Path_of_str path) = true) ps) as Hall1;
       [eapply Forall_impl; [exact Hall|]; intros q Hq; cbn in Hq;
        eapply is_file_preserved; [exact Hq|by eapply convert_heic_to_jpg_preserved]|]);
      intros Hrec; apply (IH _ _ _ Hall1) in Hrec; cbn [length]; lia.
Qed.

Lemma main_loop_files_placed a ps total_converted total_failed st p data :
  Forall (fun path => is_file (fs st) (Path_of_str path) = true) ps ->
  fs_lookup (fs (fst (main_loop a ps total_converted total_failed st))) p =
    Some (FFile data) ->
  fs_lookup (fs st) p = Some (FFile data) \/
  exists path, path ∈ ps /\
    p = jpg_target (Path_of_str path) (option_map DirStr (output a)).
Proof.
  revert total_converted total_failed st.
  induction ps as [|path ps IH]; intros tc tf st Hall; cbn [main_loop].
  - by left.
  - apply Forall_cons in Hall as [Hf Hall].
    unfold bind at 1. unfold Path_is_file. destruct (stat_error _); [by left|].
    rewrite Hf. unfold bind at 1.
    pose proof (convert_heic_to_jpg_files (Path_of_str path)
                  (option_map DirStr (output a)) (quality a) st p) as Hfiles.
    destruct (convert_heic_to_jpg _ _ _ st) as [st1 [[t|]|e]] eqn:Hc; cbn [fst] in *.
    3:{ intros Hp. destruct (Hfiles _ Hp) as [?|[_ ->]]; [by left|].
        right. exists path. split; [by left|done]. }
    all: assert (Forall (fun path => is_file (fs st1) (Path_of_str path) = true) ps)
           as Hall1
           by (eapply Forall_impl; [exact Hall|]; intros q Hq; cbn in Hq;
               eapply is_file_preserved; [exact Hq|by eapply convert_heic_to_jpg_preserved]).
    all: intros Hp; destruct (IH _ _ _ Hall1 Hp) as [H1|(q & Hq & ->)];
           [|right; exists q; split; [by right|done]].
    all: destruct (Hfiles _ H1) as [?|[_ ->]]; [by left|].
    all: right; exists path; split; [by left|done].
Qed.

Lemma main_fs a st :
  paths a <> [] -> fs (fst (main a st)) = fs (fst (main_loop a (paths a) 0 0 st)).
Proof.
  intros Hne. unfold main. destruct (paths a) as [|p ps] eqn:Hp; [done|].
  cbv [bind print modify ret].
  by destruct (main_loop a (p :: ps) 0 0 st) as [st1 [totals|e]].
Qed.

(** X11. With an output directory given and every path on the command
    line a file, every file that the run makes lies in the output
    directory, under a name that ends in [.jpg]. *)
Theorem file_arguments_go_to_output a out st p data :
  output a = Some out ->
  out <> "" ->
  Forall (fun path => is_file (fs st) (Path_of_str path) = true) (paths a) ->
  fs_lookup (fs (fst (main a st))) p = Some (FFile data) ->
  fs_lookup (fs st) p = Some (FFile data) \/
  exists n, p = div (Path_of_str out) n /\ Py.endswith n ".jpg" = true.
Proof.
  intros Hout Hne Hall. destruct (paths a) as [|p0 ps] eqn:Hps.
  { unfold main. rewrite Hps. by left. }
  rewrite main_fs by (by rewrite Hps). rewrite Hps. intros Hp.
  destruct (main_loop_files_placed a (p0 :: ps) 0 0 st p data Hall Hp)
    as [?|(path & _ & ->)]; [by left|].
  right. exists (stem (Path_of_str path) +:+ ".jpg"). split; [|apply endswith_app].
  rewrite Hout. unfold jpg_target. cbn. apply String.eqb_neq in Hne. by rewrite Hne.
Qed.

(** X12. When every path on the command line is a file and the run
    comes to its end, each path is counted once: the two totals add up
    to the number of paths. *)
Theorem file_arguments_counted_once a st st' total_converted total_failed :
  Forall (fun path => is_file (fs st) (Path_of_str path) = true) (paths a) ->
  main a st = (st', Ok (Some (total_converted, total_failed))) ->
  (total_converted + total_failed = length (paths a))%nat.
Proof.
  intros Hall. unfold main. destruct (paths a) as [|p0 ps] eqn:Hps; [done|].
  cbv [bind print modify ret].
  destruct (main_loop a (p0 :: ps) 0 0 st) as [st1 [totals|e]] eqn:Hl; [|done].
  intros [= _ Ht]. apply main_loop_files_counted in Hl; [|done].
  rewrite Ht in Hl. cbn [fst snd] in Hl. lia.
Qed.

Lemma folder_loop_counted files create_subfolder quality converted failed st st' counts :
  folder_loop files create_subfolder quality converted failed st = (st', Ok counts) ->
  (fst counts + snd counts = converted + failed + length files)%nat.
Proof.
  revert converted failed st.
  induction files as [|f files IH]; intros converted failed st; cbn [folder_loop].
  - intros [= _ <-]. cbn. lia.
  - unfold bind at 1.
    destruct (convert_heic_to_jpg _ _ _ st) as [st1 [[t|]|e]]; [| |done];
      intros Hrec%IH; cbn [length]; lia.
Qed.

(** X13. The two counts that [convert_folder] gives back for a folder
    that is there add up to the number of files that the scan kept:
    every one of them is counted, as converted or as failed. *)
Theorem convert_folder_counts_each folder_path recursive create_subfolder quality
    st st' converted failed :
  exists_ (fs st) folder_path = true ->
  convert_folder folder_path recursive create_subfolder quality st =
    (st', Ok (converted, failed)) ->
  (converted + failed = length (find_heic_files (fs st) folder_path recursive))%nat.
Proof.
  intros Hex. unfold convert_folder. unfold bind at 1. unfold Path_exists.
  destruct (stat_error folder_path); [done|].
  cbv [bind get ret print modify]. cbn [fs stdout fst snd]. rewrite Hex. cbn [negb].
  destruct (length _ =? 0)%nat eqn:Hl.
  { intros [= _ <- <-]. apply Nat.eqb_eq in Hl. by rewrite Hl. }
  match goal with
  | |- context [folder_loop ?l ?c ?q 0 0 ?s] =>
      destruct (folder_loop l c q 0 0 s) as [st1 [counts|e]] eqn:Hloop; [|done]
  end.
  intros [= _ Hc]. apply folder_loop_counted in Hloop. rewrite Hc in Hloop.
  cbn [fst snd] in Hloop. unfold sorted in Hloop.
  rewrite (Permutation_length (merge_sort_Permutation _ _)) in Hloop. lia.
Qed.



End Counts.

(** X16. The scan of a folder keeps entries under the folder (right
    under it when the scan is not recursive) whose name ends in
    [.heic], [.HEIC], [.heif] or [.HEIF], and no other; of the entries
    of this kind whose paths are equal up to letter case it keeps one;
    and every entry of this kind is kept or has such a path kept in its
    place. *)
Theorem find_heic_files_selection fs0 folder_path (recursive : bool) :
  let under f := if recursive then is_descendant folder_path f else is_child folder_path f in
  let spelled f :=
    Py.endswith (name f) ".heic" || Py.endswith (name f) ".HEIC" ||
    Py.endswith (name f) ".heif" || Py.endswith (name f) ".HEIF" in
  (forall f, f ∈ find_heic_files fs0 folder_path recursive ->
             f ∈ fs0.*1 /\ under f = true /\ spelled f = true) /\
  NoDup (seen_key <$> find_heic_files fs0 folder_path recursive) /\
  (forall f, f ∈ fs0.*1 -> under f = true -> spelled f = true ->
             exists g, g ∈ find_heic_files fs0 folder_path recursive /\
                       seen_key g = seen_key f).
Proof.
  cbn zeta. split; [|split].
  - intros f. apply find_heic_files_elem.
  - apply remove_duplicates_NoDup.
  - intros f. apply find_heic_files_covers.
Qed.

(** *** The place of the output of a folder *)

Section FolderOutput.
Context `{lib : Imaging} `{os : OS}.

Lemma folder_loop_files_placed files (create_subfolder : bool) quality converted failed
    st p data :
  fs_lookup (fs (fst (folder_loop files create_subfolder quality converted failed st))) p =
    Some (FFile data) ->
  fs_lookup (fs st) p = Some (FFile data) \/
  exists f, f ∈ files /\
    p = div (if create_subfolder then div (parent f) "jpg files" else parent f)
            (stem f +:+ ".jpg").
Proof.
  revert converted failed st.
  induction files as [|f files IH]; intros converted failed st; cbn [folder_loop].
  - by left.
  - unfold bind at 1.
    pose proof (convert_heic_to_jpg_files f
                  (Some (DirPath (if create_subfolder then div (parent f) "jpg files"
                                  else parent f))) quality st p) as Hfiles.
    destruct (convert_heic_to_jpg _ _ _ st) as [st1 [[t|]|e]]; cbn [fst] in *.
    3:{ intros Hp. destruct (Hfiles _ Hp) as [?|[_ ->]]; [by left|].
        right. exists f. split; [by left|done]. }
    all: intros Hp; destruct (IH _ _ _ Hp) as [H1|(g & Hg & ->)];
           [|right; exists g; split; [by right|done]].
    all: destruct (Hfiles _ H1) as [?|[_ ->]]; [by left|].
    all: right; exists f; split; [by left|done].
Qed.

(** X18. Every file that [convert_folder] makes is the JPG of a file
    that the scan kept: it has the stem of that file, and it lies in
    [jpg files] next to it, or beside it when no subfolder is asked
    for. *)
Theorem convert_folder_output_place folder_path recursive (create_subfolder : bool)
    quality st p data :
  fs_lookup (fs (fst (convert_folder folder_path recursive create_subfolder quality st))) p =
    Some (FFile data) ->
  fs_lookup (fs st) p = Some (FFile data) \/
  exists f, f ∈ find_heic_files (fs st) folder_path recursive /\
    p = div (if create_subfolder then div (parent f) "jpg files" else parent f)
            (stem f +:+ ".jpg").
Proof.
  unfold convert_folder. unfold bind at 1. unfold Path_exists.
  destruct (stat_error folder_path); [by left|].
  cbv [bind get ret print modify]. cbn [fs stdout fst snd].
  destruct (exists_ (fs st) folder_path); cbn [negb fst fs]; [|by left].
  destruct (length _ =? 0)%nat; cbn [fst fs]; [by left|].
  match goal with
  | |- context [folder_loop ?l ?c ?q 0 0 ?s] =>
      pose proof (folder_loop_files_placed l c q 0 0 s p data) as Hloop;
      destruct (folder_loop l c q 0 0 s) as [st1 [counts|e]]
  end; cbn [fst fs] in *; intros Hp;
    (destruct (Hloop Hp) as [?|(f & Hf & ->)]; [by left|]);
    right; exists f; (split; [|done]);
    unfold sorted in Hf; by rewrite merge_sort_Permutation in Hf.
Qed.

End FolderOutput.

(** *** The end of interactive mode *)

Section Interactive.
Context `{lib : Imaging} `{os : OS}.

Lemma bind_Ok_inv {S A B} (m : M S A) (k : A -> M S B) st st' b :
  bind m k st = (st', Ok b) -> exists st1 a, m st = (st1, Ok a) /\ k a st1 = (st', Ok b).
Proof.
  unfold bind. destruct (m st) as [st1 [a|e]]; [|done]. intros Hk. by exists st1, a.
Qed.

Lemma interactive_loop_returns lines st st' :
  interactive_loop lines st = (st', Ok tt) ->
  last (stdout st') = Some "Goodbye!" /\
  exists line, line ∈ lines /\ Py.strip line = "4".
Proof.
  remember (length lines) as n eqn:Hn. revert lines Hn st.
  induction n as [n IH] using lt_wf_ind. intros lines -> st.
  assert (forall rest s, (length rest < length lines)%nat ->
            interactive_loop rest s = (st', Ok tt) ->
            last (stdout st') = Some "Goodbye!" /\
            exists line, line ∈ rest /\ Py.strip line = "4") as Hrec
    by (intros rest s Hlt; by eapply IH).
  clear IH. destruct lines as [|l1 rest1]; cbn [interactive_loop].
  { intros (s1 & _ & _ & Hr)%bind_Ok_inv. discriminate Hr. }
  intros (s1 & _ & _ & Hr)%bind_Ok_inv. revert Hr. unfold prompt.
  destruct (String.eqb (Py.strip l1) "1").
  { intros (s2 & _ & _ & Hr)%bind_Ok_inv. revert Hr.
    destruct rest1 as [|l2 rest2]; [done|].
    destruct (negb _).
    - intros (s3 & _ & _ & Hr)%bind_Ok_inv. revert Hr.
      destruct rest2 as [|l3 rest3]; [done|].
      intros (s4 & _ & _ & Hr)%bind_Ok_inv.
      apply Hrec in Hr as [? (line & ? & ?)]; [|cbn; lia].
      split; [done|]. exists line. split; [|done]. by do 3 right.
    - intros Hr. apply Hrec in Hr as [? (line & ? & ?)]; [|cbn; lia].
      split; [done|]. exists line. split; [|done]. by do 2 right. }
  destruct (String.eqb (Py.strip l1) "2").
  { intros (s2 & _ & _ & Hr)%bind_Ok_inv. revert Hr.
    destruct rest1 as [|l2 rest2]; [done|].
    destruct (negb _).
    - intros (s3 & _ & _ & Hr)%bind_Ok_inv. revert Hr.
      destruct rest2 as [|l3 rest3]; [done|].
      intros (s4 & _ & _ & Hr)%bind_Ok_inv.
      apply Hrec in Hr as [? (line & ? & ?)]; [|cbn; lia].
      split; [done|]. exists line. split; [|done]. by do 3 right.
    - intros Hr. apply Hrec in Hr as [? (line & ? & ?)]; [|cbn; lia].
      split; [done|]. exists line. split; [|done]. by do 2 right. }
  destruct (String.eqb (Py.strip l1) "3").
  { intros (s2 & _ & _ & Hr)%bind_Ok_inv. revert Hr.
    destruct rest1 as [|l2 rest2]; [done|].
    destruct (negb _).
    - intros (s3 & _ & _ & Hr)%bind_Ok_inv. revert Hr.
      destruct rest2 as [|l3 rest3]; [done|].
      intros (s4 & _ & _ & Hr)%bind_Ok_inv.
      apply Hrec in Hr as [? (line & ? & ?)]; [|cbn; lia].
      split; [done|]. exists line. split; [|done]. by do 3 right.
    - intros Hr. apply Hrec in Hr as [? (line & ? & ?)]; [|cbn; lia].
      split; [done|]. exists line. split; [|done]. by do 2 right. }
  destruct (String.eqb_spec (Py.strip l1) "4") as [H4|_].
  { intros [= <-]. cbn. split; [apply last_snoc|]. exists l1. split; [by left|done]. }
  intros (s2 & _ & _ & Hr)%bind_Ok_inv.
  apply Hrec in Hr as [? (line & ? & ?)]; [|cbn; lia].
  split; [done|]. exists line. split; [|done]. by right.
Qed.

(** X17. Interactive mode comes to its end only by the choice [4]:
    when it returns, its last line of output is [Goodbye!] and a line
    of the input was [4], spaces aside. *)
Theorem interactive_mode_returns lines st st' :
  interactive_mode lines st = (st', Ok tt) ->
  last (stdout st') = Some "Goodbye!" /\
  exists line, line ∈ lines /\ Py.strip line = "4".
Proof.
  unfold interactive_mode.
  intros (s1 & _ & _ & (s2 & _ & _ & (s3 & _ & _ & Hr)%bind_Ok_inv)%bind_Ok_inv)%bind_Ok_inv.
  by eapply interactive_loop_returns.
Qed.

End Interactive.

(** *** Closed instances *)

Lemma cli_main_keeps_files_witness :
  fs_lookup (fs Sample.photos) ["photos"; "old.jpg"] = Some (FFile [xff]) /\
  fs_lookup (fs (fst (cli_main (lib := Sample.library) (os := Sample.os) (Sample.run_args [] None)
                        ["3"; "photos"; "y"; "4"] Sample.photos)))
    ["photos"; "old.jpg"] = Some (FFile [xff]).
Proof.
  assert (fs_lookup (fs Sample.photos) ["photos"; "old.jpg"] = Some (FFile [xff])) as Hold
    by (vm_compute; reflexivity).
  split; [exact Hold|].
  apply (cli_main_keeps_files (lib := Sample.library) (os := Sample.os) _ _ Sample.photos _ _ Hold).
Defined.

Lemma cli_main_makes_jpg_only_witness :
  let st' := fst (cli_main (lib := Sample.library) (os := Sample.os)
      (Sample.run_args ["photos"] None) []
                    Sample.photos) in
  fs_lookup (fs st') ["photos"; "jpg files"; "x.jpg"] = Some (FFile Sample.photo) /\
  fs_lookup (fs Sample.photos) ["photos"; "jpg files"; "x.jpg"] = None /\
  Py.endswith (name ["photos"; "jpg files"; "x.jpg"]) ".jpg" = true.
Proof.
  intros st'.
  assert (fs_lookup (fs st') ["photos"; "jpg files"; "x.jpg"] = Some (FFile Sample.photo))
    as Hnew by (vm_compute; reflexivity).
  split; [exact Hnew|].
  destruct (cli_main_makes_jpg_only (lib := Sample.library) (os := Sample.os)
      _ _ Sample.photos _ _ Hnew)
    as [Hold|Hjpg]; [|exact Hjpg].
  vm_compute in Hold. discriminate Hold.
Defined.

Lemma convert_heic_to_jpg_twice_witness :
  let first := convert_heic_to_jpg (lib := Sample.library) (os := Sample.os) ["photos"; "x.heic"]
                 (Some (DirStr "out")) 95 Sample.photos in
  snd first = Ok (Some ["out"; "x.jpg"]) /\
  convert_heic_to_jpg (lib := Sample.library) (os := Sample.os) ["photos"; "x.heic"]
    (Some (DirStr "out")) 95 (fst first) =
  ({| fs := fs (fst first);
      stdout := ["  Converted: x.heic -> x.jpg"; "  Skipped (exists): x.jpg"] |},
   Ok (Some ["out"; "x.jpg"])).
Proof.
  intros first.
  assert (first = (fst first, Ok (Some ["out"; "x.jpg"]))) as Hfirst
    by (vm_compute; reflexivity).
  split; [by rewrite Hfirst|].
  apply (convert_heic_to_jpg_twice (lib := Sample.library) (os := Sample.os)
      _ _ _ Sample.photos _ _ Hfirst).
Defined.

Lemma file_arguments_go_to_output_witness :
  let a := Sample.run_args ["photos/x.heic"] (Some "out") in
  output a = Some "out" /\
  Forall (fun path => is_file (fs Sample.photos) (Path_of_str path) = true) (paths a) /\
  fs_lookup (fs (fst (main (lib := Sample.library) (os := Sample.os)
      a Sample.photos))) ["out"; "x.jpg"] =
    Some (FFile Sample.photo) /\
  exists n, ["out"; "x.jpg"] = div (Path_of_str "out") n /\ Py.endswith n ".jpg" = true.
Proof.
  intros a.
  assert (Forall (fun path => is_file (fs Sample.photos) (Path_of_str path) = true) (paths a))
    as Hall by (repeat constructor).
  assert (fs_lookup (fs (fst (main (lib := Sample.library) (os := Sample.os)
      a Sample.photos))) ["out"; "x.jpg"] =
          Some (FFile Sample.photo)) as Hnew by (vm_compute; reflexivity).
  split; [reflexivity|]. split; [exact Hall|]. split; [exact Hnew|].
  destruct (file_arguments_go_to_output (lib := Sample.library) (os := Sample.os)
      a "out" Sample.photos _ _
              eq_refl ltac:(discriminate) Hall Hnew) as [Hold|Hout]; [|exact Hout].
  vm_compute in Hold. discriminate Hold.
Defined.

Lemma file_arguments_counted_once_witness :
  let a := Sample.run_args ["photos/x.heic"; "photos/old.jpg"] None in
  Forall (fun path => is_file (fs Sample.photos) (Path_of_str path) = true) (paths a) /\
  snd (main (lib := Sample.library) (os := Sample.os) a Sample.photos) = Ok (Some (2, 0)%nat) /\
  (2 + 0 = length (paths a))%nat.
Proof.
  intros a.
  assert (Forall (fun path => is_file (fs Sample.photos) (Path_of_str path) = true) (paths a))
    as Hall by (repeat constructor).
  assert (main (lib := Sample.library) (os := Sample.os) a Sample.photos =
          (fst (main (lib := Sample.library) (os := Sample.os)
              a Sample.photos), Ok (Some (2, 0)%nat))) as Hrun
    by (vm_compute; reflexivity).
  split; [exact Hall|]. split; [by rewrite Hrun|].
  apply (file_arguments_counted_once (lib := Sample.library) (os := Sample.os)
      a Sample.photos _ 2 0 Hall Hrun).
Defined.

Lemma convert_folder_counts_each_witness :
  exists_ (fs Sample.photos) ["photos"] = true /\
  snd (convert_folder (lib := Sample.library) (os := Sample.os)
      ["photos"] false true 95 Sample.photos) =
    Ok (1, 0)%nat /\
  (1 + 0 = length (find_heic_files (fs Sample.photos) ["photos"] false))%nat.
Proof.
  assert (exists_ (fs Sample.photos) ["photos"] = true) as Hex by (vm_compute; reflexivity).
  assert (convert_folder (lib := Sample.library) (os := Sample.os)
      ["photos"] false true 95 Sample.photos =
          (fst (convert_folder (lib := Sample.library) (os := Sample.os)
              ["photos"] false true 95 Sample.photos),
           Ok (1, 0)%nat)) as Hrun by (vm_compute; reflexivity).
  split; [exact Hex|]. split; [by rewrite Hrun|].
  apply (convert_folder_counts_each (lib := Sample.library) (os := Sample.os)
      _ _ _ _ Sample.photos _ 1 0 Hex Hrun).
Defined.


(** The test for a target whose name is too long for the system
    raises, and nothing catches what it raises. *)
Lemma convert_heic_to_jpg_target_refused :
  let st := {| fs := [([Sample.long_name +:+ ".x"], FFile Sample.photo)]; stdout := [] |} in
  convert_heic_to_jpg (lib := Sample.library) (os := Sample.os)
    [Sample.long_name +:+ ".x"] None 95 st = (st, Raise "OSError").
Proof. vm_compute. reflexivity. Qed.


Lemma interactive_mode_returns_witness :
  let run := interactive_mode (lib := Sample.library) (os := Sample.os)
      ["7"; " 4 "; "1"] Sample.photos in
  snd run = Ok tt /\
  last (stdout (fst run)) = Some "Goodbye!" /\
  exists line, line ∈ ["7"; " 4 "; "1"] /\ Py.strip line = "4".
Proof.
  intros run.
  assert (run = (fst run, Ok tt)) as Hrun by (vm_compute; reflexivity).
  split; [by rewrite Hrun|].
  apply (interactive_mode_returns (lib := Sample.library) (os := Sample.os) _ Sample.photos _ Hrun).
Defined.

Lemma convert_folder_output_place_witness :
  let st' := fst (convert_folder (lib := Sample.library) (os := Sample.os) ["photos"] false true 95
                    Sample.photos) in
  fs_lookup (fs st') ["photos"; "jpg files"; "x.jpg"] = Some (FFile Sample.photo) /\
  exists f, f ∈ find_heic_files (fs Sample.photos) ["photos"] false /\
    ["photos"; "jpg files"; "x.jpg"] = div (div (parent f) "jpg files") (stem f +:+ ".jpg").
Proof.
  intros st'.
  assert (fs_lookup (fs st') ["photos"; "jpg files"; "x.jpg"] = Some (FFile Sample.photo))
    as Hnew by (vm_compute; reflexivity).
  split; [exact Hnew|].
  destruct (convert_folder_output_place (lib := Sample.library) (os := Sample.os)
      _ _ true _ _ _ _ Hnew)
    as [Hold|Hout]; [|exact Hout].
  vm_compute in Hold. discriminate Hold.
Defined.

End CliMore.
